(** * Crypto price tracker: price state, alerts, notification and stream loop

    A shallow embedding of [price_tracker.py], [alert_manager.py],
    [notification.py], [websocket_handler.py] and the run loop of [main.py].

    Modelling conventions.
    - Python [float] prices, percentages and clock readings are exact
      rationals in canonical form ([Qc]); rounding, infinities and NaN are
      outside the model.  [float("inf")] only occurs as the fall-back of
      [atl or float("inf")] and is modelled by the comparison that uses it.
    - Python dictionaries keyed by strings are [gmap string _].
    - Every method is a computation in a state-and-exception monad over one
      [World]: the objects of the program (tracker, alert manager, e-mail
      handler, socket handler) and the record of what has been asked of the
      outside (clock readings, transport calls, historical fetches, sleeps,
      log lines).
    - The outside answers through an [Env]: the n-th clock reading, whether
      the n-th primary or secondary delivery succeeds, what the n-th
      historical fetch returns, and so on.
    - Message bodies are built and handed to the transport but decide
      nothing; they are left out.  The watchdog and the digest scheduler are
      separate tasks and are not part of the sequential model. *)

From Stdlib Require Import ZArith QArith Qcanon String List Lia.
From stdpp Require Import base option list gmap strings.

Local Open Scope Z_scope.
Local Open Scope string_scope.
Local Open Scope list_scope.
Set Warnings "-register-all".

(** ** Numbers *)

Module Num.

Definition Qcltb (x y : Qc) : bool :=
  match (x ?= y)%Qc with Lt => true | _ => false end.

Definition Qcleb (x y : Qc) : bool :=
  match (x ?= y)%Qc with Gt => false | _ => true end.

Definition Qceqb (x y : Qc) : bool :=
  match (x ?= y)%Qc with Eq => true | _ => false end.

Definition Qcabs (x : Qc) : Qc := if Qcltb x 0 then (- x)%Qc else x.

Definition Qcmin (x y : Qc) : Qc := if Qcltb y x then y else x.

Definition of_Z (n : Z) : Qc := Q2Qc (inject_Z n).

(** Python [int(x)] on a float: truncation towards zero. *)
Definition py_int (x : Qc) : Z := Z.quot (Qnum x) (Zpos (Qden x)).

(** [2 ** n] for an integer exponent; a negative exponent gives a
    fraction, as Python's [int ** int] does by returning a float. *)
Definition pow2 (n : Z) : Qc :=
  if (0 <=? n)%Z then of_Z (2 ^ n) else (/ of_Z (2 ^ (- n)))%Qc.

End Num.
Import Num.

(** ** Exceptions and results *)

Inductive exn :=
  | ConnectionClosed
  | InvalidStatusCode (status_code : Z)
  | CancelledError
  | JSONDecodeError
  | AttributeError
  | TypeError
  | ValueError
  | ZeroDivisionError
  | SMTPException
  | APIError.

(** [except Exception] catches everything but [CancelledError], which
    derives from [BaseException]. *)
Definition is_Exception (e : exn) : bool :=
  match e with CancelledError => false | _ => true end.

Inductive result (A : Type) :=
  | Ok (a : A)
  | Raise (e : exn).
Arguments Ok {A} a.
Arguments Raise {A} e.

Definition returns {A} (r : result A) : bool :=
  match r with Ok _ => true | Raise _ => false end.

(** ** Data *)

(** An entry of [PriceTracker.price_changes]. *)
Record sample := Sample { s_price : Qc; s_timestamp : Z }.

(** A candle of the historical data: [kline[2]] and [kline[3]] after
    [float]. *)
Record kline := Kline { k_high : Qc; k_low : Qc }.

Record PriceEvent := MkPriceEvent {
  symbol : string;
  price : Qc;
  time : Qc;
  event_type : string
}.

Record Config := MkConfig {
  SYMBOLS_OF_INTEREST : list string;
  NOTIFICATION_THRESHOLD : Qc;
  NOTIFICATION_INTERVAL : Z;
  PERCENTAGE_CHANGE_TIMEFRAME : Z;
  MAX_RETRIES : Z;
  INITIAL_RETRY_DELAY : Qc;
  MAX_RETRY_DELAY : Qc
}.

(** Decoded JSON, as [json.loads] returns it. *)
Inductive json :=
  | JNull
  | JBool (b : bool)
  | JNumber (q : Qc)
  | JString (s : string)
  | JArray (items : list json)
  | JObject (fields : list (string * json)).

(** An inbound frame: binary, or text together with what [json.loads]
    makes of it ([None] when it raises [JSONDecodeError]). *)
Inductive frame :=
  | FBytes
  | FText (decoded : option json).

(** How iteration over the socket ends once its frames are consumed. *)
Inductive stream_end :=
  | EndOfStream
  | EndRaises (e : exn).

Inductive connect_outcome :=
  | Refused (e : exn)
  | Connected (frames : list frame) (fin : stream_end).

Inductive level := DEBUG | INFO | WARNING | ERROR.

(** ** The outside *)

Record Env := MkEnv {
  (** [time.time()] / [datetime.now()], by reading number *)
  time_time : nat -> Qc;
  (** [strftime('%Y-%m-%d')] of a clock reading *)
  strftime_date : Qc -> string;
  (** does the n-th call of [_send_email] deliver? *)
  primary_delivers : nat -> bool;
  (** does the n-th call of [_send_via_secondary_server] deliver? *)
  secondary_delivers : nat -> bool;
  (** [api_client.get_historical_data(symbol, limit)], by call number:
      the [klines] of the answer, or the exception of the collaborator *)
  get_historical_data : nat -> string -> Z -> result (list kline);
  (** [futures_exchange_info()["symbols"]] as (symbol, status) pairs *)
  futures_exchange_info : nat -> result (list (string * string));
  (** [float(s)] on a string; [None] is [ValueError] *)
  float_of_string : string -> option Qc;
  (** [websockets.connect(uri)], by attempt number *)
  connect : nat -> connect_outcome;
  (** [should_exit.is_set()], by query number *)
  should_exit : nat -> bool
}.

(** ** The program state *)

Record PriceTracker := MkPriceTracker {
  all_time_highs : gmap string Qc;
  all_time_lows : gmap string Qc;
  ninety_day_highs : gmap string Qc;
  ninety_day_lows : gmap string Qc;
  price_changes : gmap string (list sample)
}.

Record AlertManager := MkAlertManager {
  ath_events : list PriceEvent;
  atl_events : list PriceEvent;
  ninety_day_ath_events : list PriceEvent;
  ninety_day_atl_events : list PriceEvent;
  price_movement_events : list PriceEvent
}.

Record EmailNotificationHandler := MkEmail {
  last_notification_time : gmap string Qc
}.

Record WebSocketHandler := MkWS {
  all_usdt_symbols : gset string;
  last_message_time : option Qc
}.

(** What has been asked of the outside so far. *)
Record Outside := MkOutside {
  clock_reads : nat;
  primary_calls : nat;
  secondary_calls : nat;
  history_calls : nat;
  exchange_info_calls : nat;
  connects : nat;
  exit_queries : nat;
  sleeps : list Qc;
  log : list (level * string);
  (** the calls of [AlertManager.send_alert], oldest first *)
  alerts_raised : list (string * string * Qc)
}.

Record World := MkWorld {
  tracker : PriceTracker;
  alerts : AlertManager;
  email : EmailNotificationHandler;
  ws : WebSocketHandler;
  out : Outside
}.

Definition with_tracker (f : PriceTracker -> PriceTracker) (w : World) : World :=
  MkWorld (f (tracker w)) (alerts w) (email w) (ws w) (out w).
Definition with_alerts (f : AlertManager -> AlertManager) (w : World) : World :=
  MkWorld (tracker w) (f (alerts w)) (email w) (ws w) (out w).
Definition with_email (f : EmailNotificationHandler -> EmailNotificationHandler)
    (w : World) : World :=
  MkWorld (tracker w) (alerts w) (f (email w)) (ws w) (out w).
Definition with_ws (f : WebSocketHandler -> WebSocketHandler) (w : World) : World :=
  MkWorld (tracker w) (alerts w) (email w) (f (ws w)) (out w).
Definition with_out (f : Outside -> Outside) (w : World) : World :=
  MkWorld (tracker w) (alerts w) (email w) (ws w) (f (out w)).

Definition new_tracker : PriceTracker := MkPriceTracker ∅ ∅ ∅ ∅ ∅.
Definition new_alerts : AlertManager := MkAlertManager [] [] [] [] [].
Definition new_email : EmailNotificationHandler := MkEmail ∅.
Definition new_ws : WebSocketHandler := MkWS ∅ None.
Definition new_outside : Outside := MkOutside 0 0 0 0 0 0 0 [] [] [].

(** The state after [CryptoPriceTracker.__init__]. *)
Definition new_world : World :=
  MkWorld new_tracker new_alerts new_email new_ws new_outside.

(** ** The monad *)

Definition M (A : Type) : Type := World -> result A * World.

Definition ret {A} (a : A) : M A := fun w => (Ok a, w).
Definition raise {A} (e : exn) : M A := fun w => (Raise e, w).
Definition bind {A B} (m : M A) (k : A -> M B) : M B :=
  fun w => match m w with
           | (Ok a, w') => k a w'
           | (Raise e, w') => (Raise e, w')
           end.
Definition modify (f : World -> World) : M unit := fun w => (Ok tt, f w).
Definition gets {A} (f : World -> A) : M A := fun w => (Ok (f w), w).

(** [try: m  except Exception as e: h e]: other exceptions pass. *)
Definition try_except {A} (m : M A) (h : exn -> M A) : M A :=
  fun w => match m w with
           | (Ok a, w') => (Ok a, w')
           | (Raise e, w') => if is_Exception e then h e w' else (Raise e, w')
           end.

(** [try: m  finally: f]. *)
Definition try_finally {A} (m : M A) (f : M unit) : M A :=
  fun w => match m w with
           | (r, w') => match f w' with
                        | (Ok _, w'') => (r, w'')
                        | (Raise e, w'') => (Raise e, w'')
                        end
           end.

Declare Scope py_scope.
Delimit Scope py_scope with py.
Notation "x <- m ;; k" := (bind m (fun x => k))
  (at level 100, m at next level, right associativity) : py_scope.
Notation "m ;; k" := (bind m (fun _ => k))
  (at level 100, right associativity) : py_scope.
Local Open Scope py_scope.

(** ** Primitive effects *)

Section Program.

Context (env : Env) (config : Config).

Definition read_clock : M Qc := fun w =>
  (Ok (time_time env (clock_reads (out w))),
   with_out (fun o => MkOutside (S (clock_reads o)) (primary_calls o)
     (secondary_calls o) (history_calls o) (exchange_info_calls o) (connects o)
     (exit_queries o) (sleeps o) (log o) (alerts_raised o)) w).

Definition asyncio_sleep (d : Qc) : M unit :=
  modify (with_out (fun o => MkOutside (clock_reads o) (primary_calls o)
     (secondary_calls o) (history_calls o) (exchange_info_calls o) (connects o)
     (exit_queries o) (sleeps o ++ [d]) (log o) (alerts_raised o))).

Definition logger (l : level) (msg : string) : M unit :=
  modify (with_out (fun o => MkOutside (clock_reads o) (primary_calls o)
     (secondary_calls o) (history_calls o) (exchange_info_calls o) (connects o)
     (exit_queries o) (sleeps o) (log o ++ [(l, msg)]) (alerts_raised o))).

Definition note_alert (alert_type sym : string) (p : Qc) : M unit :=
  modify (with_out (fun o => MkOutside (clock_reads o) (primary_calls o)
     (secondary_calls o) (history_calls o) (exchange_info_calls o) (connects o)
     (exit_queries o) (sleeps o) (log o) (alerts_raised o ++ [(alert_type, sym, p)]))).

Definition api_get_historical_data (sym : string) (limit : Z) : M (list kline) :=
  fun w =>
  (get_historical_data env (history_calls (out w)) sym limit,
   with_out (fun o => MkOutside (clock_reads o) (primary_calls o)
     (secondary_calls o) (S (history_calls o)) (exchange_info_calls o) (connects o)
     (exit_queries o) (sleeps o) (log o) (alerts_raised o)) w).

(** ** price_tracker.py *)

Definition set_price_changes (sym : string) (l : list sample) : M unit :=
  modify (with_tracker (fun t => MkPriceTracker (all_time_highs t)
    (all_time_lows t) (ninety_day_highs t) (ninety_day_lows t)
    (<[sym := l]> (price_changes t)))).

(** The list comprehension of [update_price_change]. *)
Definition within_timeframe (current_time timeframe : Z) (l : list sample)
    : list sample :=
  List.filter (fun entry => (current_time - s_timestamp entry <=? timeframe)%Z) l.

Definition update_price_change (sym : string) (current_price : Qc)
    (timeframe : Z) : M (option Qc) :=
  t <- read_clock ;;
  let current_time := py_int t in
  stored <- gets (fun w => default [] (price_changes (tracker w) !! sym)) ;;
  let kept := within_timeframe current_time timeframe stored in
  let entries := kept ++ [Sample current_price current_time] in
  set_price_changes sym entries ;;
  if (1 <? Z.of_nat (length entries))%Z then
    let initial_price := s_price (List.hd (Sample current_price current_time) entries) in
    if Qceqb initial_price 0 then raise ZeroDivisionError
    else ret (Some ((current_price - initial_price) / initial_price * of_Z 100)%Qc)
  else ret None.

(** [max(...)] and [min(...)] over a non-empty sequence, head first: the
    running extremum is replaced only by a strictly better element. *)
Definition py_max (x : Qc) (xs : list Qc) : Qc :=
  fold_left (fun m y => if Qcltb m y then y else m) xs x.
Definition py_min (x : Qc) (xs : list Qc) : Qc :=
  fold_left (fun m y => if Qcltb y m then y else m) xs x.

Definition set_all_time (sym : string) (hi lo : Qc) : M unit :=
  modify (with_tracker (fun t => MkPriceTracker (<[sym := hi]> (all_time_highs t))
    (<[sym := lo]> (all_time_lows t)) (ninety_day_highs t) (ninety_day_lows t)
    (price_changes t))).

Definition set_ninety_day (sym : string) (hi lo : Qc) : M unit :=
  modify (with_tracker (fun t => MkPriceTracker (all_time_highs t)
    (all_time_lows t) (<[sym := hi]> (ninety_day_highs t))
    (<[sym := lo]> (ninety_day_lows t)) (price_changes t))).

Definition update_all_time_high_low (sym : string) : M unit :=
  klines <- api_get_historical_data sym 1000 ;;
  match klines with
  | [] => ret tt
  | k :: ks =>
      set_all_time sym (py_max (k_high k) (map k_high ks))
                       (py_min (k_low k) (map k_low ks))
  end.

Definition update_ninety_day_high_low (sym : string) : M unit :=
  klines <- api_get_historical_data sym 540 ;;
  match klines with
  | [] => ret tt
  | k :: ks =>
      set_ninety_day sym (py_max (k_high k) (map k_high ks))
                         (py_min (k_low k) (map k_low ks))
  end.

(** The four getters share one shape: fetch when the symbol is not in the
    dictionary, then [dict.get]. *)
Definition cached_or_fetch (field : PriceTracker -> gmap string Qc)
    (fetch : M unit) (sym : string) : M (option Qc) :=
  cached <- gets (fun w => field (tracker w) !! sym) ;;
  match cached with
  | None => fetch
  | Some _ => ret tt
  end ;;
  gets (fun w => field (tracker w) !! sym).

Definition get_all_time_high (sym : string) : M (option Qc) :=
  cached_or_fetch all_time_highs (update_all_time_high_low sym) sym.
Definition get_all_time_low (sym : string) : M (option Qc) :=
  cached_or_fetch all_time_lows (update_all_time_high_low sym) sym.
Definition get_ninety_day_high (sym : string) : M (option Qc) :=
  cached_or_fetch ninety_day_highs (update_ninety_day_high_low sym) sym.
Definition get_ninety_day_low (sym : string) : M (option Qc) :=
  cached_or_fetch ninety_day_lows (update_ninety_day_high_low sym) sym.

(** ** notification.py *)

Definition _send_email : M unit := fun w =>
  ((if primary_delivers env (primary_calls (out w)) then Ok tt
    else Raise SMTPException),
   with_out (fun o => MkOutside (clock_reads o) (S (primary_calls o))
     (secondary_calls o) (history_calls o) (exchange_info_calls o) (connects o)
     (exit_queries o) (sleeps o) (log o) (alerts_raised o)) w).

Definition secondary_transport : M unit := fun w =>
  ((if secondary_delivers env (secondary_calls (out w)) then Ok tt
    else Raise SMTPException),
   with_out (fun o => MkOutside (clock_reads o) (primary_calls o)
     (S (secondary_calls o)) (history_calls o) (exchange_info_calls o) (connects o)
     (exit_queries o) (sleeps o) (log o) (alerts_raised o)) w).

Definition _send_via_secondary_server : M unit :=
  secondary_transport ;;
  logger INFO "Sent email notification via secondary server.".

Definition _handle_retry (attempt : Z) : M unit :=
  asyncio_sleep (Qcmin (INITIAL_RETRY_DELAY config * pow2 attempt)%Qc
                       (MAX_RETRY_DELAY config)).

Definition set_last_notification_time (subject : string) (t : Qc) : M unit :=
  modify (with_email (fun e =>
    MkEmail (<[subject := t]> (last_notification_time e)))).

(** [range(n)] *)
Definition py_range (n : Z) : list Z := map Z.of_nat (seq 0 (Z.to_nat n)).

(** The [for attempt in range(MAX_RETRIES)] loop of [send_notification];
    the body answers [true] when it executed [return]. *)
Fixpoint send_attempts (subject : string) (current_time : Qc)
    (attempts : list Z) : M unit :=
  match attempts with
  | [] => ret tt
  | attempt :: rest =>
      returned <- try_except
        (_send_email ;;
         logger INFO "Sent email notification" ;;
         set_last_notification_time subject current_time ;;
         ret true)
        (fun _ =>
           logger ERROR "Error sending email notification" ;;
           if (attempt <? MAX_RETRIES config - 1)%Z then
             _handle_retry attempt ;; ret false
           else
             logger ERROR "Max retries reached for sending email. Trying secondary email server." ;;
             _send_via_secondary_server ;;
             ret false) ;;
      if returned : bool then ret tt else send_attempts subject current_time rest
  end.

Definition rate_limited (ledger : gmap string Qc) (subject : string)
    (current_time : Qc) : bool :=
  match ledger !! subject with
  | Some last => Qcltb (current_time - last)%Qc (of_Z (NOTIFICATION_INTERVAL config))
  | None => false
  end.

Definition send_notification (subject : string) : M unit :=
  current_time <- read_clock ;;
  ledger <- gets (fun w => last_notification_time (email w)) ;;
  if rate_limited ledger subject current_time then
    logger INFO "Skipping notification due to rate limiting"
  else
    send_attempts subject current_time (py_range (MAX_RETRIES config)).

(** ** alert_manager.py *)

Inductive bucket := B_ath | B_atl | B_ninety_day_ath | B_ninety_day_atl
  | B_price_movement.

(** The dictionary built in [_record_event]: its values are the five
    lists themselves. *)
Definition event_type_mapping (ty : string) : option bucket :=
  if String.eqb ty "ATH" then Some B_ath
  else if String.eqb ty "ATL" then Some B_atl
  else if String.eqb ty "90-Day ATH" then Some B_ninety_day_ath
  else if String.eqb ty "90-Day ATL" then Some B_ninety_day_atl
  else if String.eqb ty "Price Movement" then Some B_price_movement
  else None.

Definition bucket_of (b : bucket) (a : AlertManager) : list PriceEvent :=
  match b with
  | B_ath => ath_events a
  | B_atl => atl_events a
  | B_ninety_day_ath => ninety_day_ath_events a
  | B_ninety_day_atl => ninety_day_atl_events a
  | B_price_movement => price_movement_events a
  end.

(** [event_list.append(event)] on the list the mapping refers to. *)
Definition bucket_append (b : bucket) (ev : PriceEvent) (a : AlertManager)
    : AlertManager :=
  match b with
  | B_ath => MkAlertManager (ath_events a ++ [ev]) (atl_events a)
      (ninety_day_ath_events a) (ninety_day_atl_events a) (price_movement_events a)
  | B_atl => MkAlertManager (ath_events a) (atl_events a ++ [ev])
      (ninety_day_ath_events a) (ninety_day_atl_events a) (price_movement_events a)
  | B_ninety_day_ath => MkAlertManager (ath_events a) (atl_events a)
      (ninety_day_ath_events a ++ [ev]) (ninety_day_atl_events a)
      (price_movement_events a)
  | B_ninety_day_atl => MkAlertManager (ath_events a) (atl_events a)
      (ninety_day_ath_events a) (ninety_day_atl_events a ++ [ev])
      (price_movement_events a)
  | B_price_movement => MkAlertManager (ath_events a) (atl_events a)
      (ninety_day_ath_events a) (ninety_day_atl_events a)
      (price_movement_events a ++ [ev])
  end.

(** Truth value of a list: empty is false. *)
Definition truthy {A} (l : list A) : bool :=
  match l with [] => false | _ => true end.

Definition _record_event (ev : PriceEvent) : M unit :=
  modify (with_alerts (fun a =>
    match event_type_mapping (event_type ev) with
    | Some b =>
        let event_list := bucket_of b a in
        if truthy event_list then bucket_append b ev a else a
    | None => a
    end)).

Definition alert_subject (alert_type sym : string) : string :=
  alert_type +:+ " Alert: " +:+ sym.

Definition send_alert (alert_type sym : string) (p : Qc) : M unit :=
  note_alert alert_type sym p ;;
  let subject := alert_subject alert_type sym in
  try_except (send_notification subject) (fun e => raise e) ;;
  now <- read_clock ;;
  _record_event (MkPriceEvent sym p now alert_type).

Definition _clear_recorded_events : M unit :=
  modify (with_alerts (fun _ => MkAlertManager [] [] [] [] [])).

Definition send_daily_digest : M unit :=
  now <- read_clock ;;
  let subject := "Daily Digest for " +:+ strftime_date env now in
  try_finally
    (try_except (send_notification subject) (fun e => raise e))
    _clear_recorded_events.

(** ** websocket_handler.py *)

(** [try: m  except E: h] for the exceptions [catches] accepts. *)
Definition try_catch {A} (catches : exn -> bool) (m : M A) (h : exn -> M A)
    : M A :=
  fun w => match m w with
           | (Ok a, w') => (Ok a, w')
           | (Raise e, w') => if catches e then h e w' else (Raise e, w')
           end.

Definition is_JSONDecodeError (e : exn) : bool :=
  match e with JSONDecodeError => true | _ => false end.

(** [s.endswith(suffix)] *)
Definition endswith (s suffix : string) : bool :=
  let n := String.length s in
  let m := String.length suffix in
  if (m <=? n)%nat then String.eqb (substring (n - m) m s) suffix else false.

(** The handler's [symbols_of_interest], as [__init__] derives it from
    the configuration: [None] when no symbol is configured. *)
Definition symbols_of_interest : option (gset string) :=
  match SYMBOLS_OF_INTEREST config with
  | [] => None
  | l => Some (list_to_set l)
  end.

Definition api_futures_exchange_info : M (list (string * string)) := fun w =>
  (futures_exchange_info env (exchange_info_calls (out w)),
   with_out (fun o => MkOutside (clock_reads o) (primary_calls o)
     (secondary_calls o) (history_calls o) (S (exchange_info_calls o)) (connects o)
     (exit_queries o) (sleeps o) (log o) (alerts_raised o)) w).

Definition set_all_usdt_symbols (s : gset string) : M unit :=
  modify (with_ws (fun h => MkWS s (last_message_time h))).

Definition set_last_message_time (t : Qc) : M unit :=
  modify (with_ws (fun h => MkWS (all_usdt_symbols h) (Some t))).

Definition initialize_symbols : M unit :=
  match symbols_of_interest with
  | None =>
      try_except
        (exchange_info <- api_futures_exchange_info ;;
         set_all_usdt_symbols
           (list_to_set (map fst (List.filter
              (fun sy => endswith (fst sy) "USDT" && String.eqb (snd sy) "TRADING")
              exchange_info))) ;;
         logger INFO "Initialized with USDT futures symbols")
        (fun _ =>
           logger ERROR "Error initializing USDT symbols" ;;
           set_all_usdt_symbols ∅)
  | Some _ => logger INFO "Using specified symbols of interest"
  end.

(** [ath or 0]: [None] and [0.0] are both false. *)
Definition or_zero (o : option Qc) : Qc :=
  match o with
  | Some a => if Qceqb a 0 then 0%Qc else a
  | None => 0%Qc
  end.

(** [current_price < (atl or float("inf"))] *)
Definition below_or_inf (current_price : Qc) (o : option Qc) : bool :=
  match o with
  | Some a => if Qceqb a 0 then true else Qcltb current_price a
  | None => true
  end.

Definition check_and_notify (sym : string) (current_price : Qc) : M unit :=
  price_change <- update_price_change sym current_price 3600 ;;
  match price_change with
  | Some change =>
      if Qcleb (NOTIFICATION_THRESHOLD config) (Qcabs change)
      then send_alert "Price Movement" sym current_price
      else ret tt
  | None => ret tt
  end ;;
  ath <- get_all_time_high sym ;;
  atl <- get_all_time_low sym ;;
  ninety_day_high <- get_ninety_day_high sym ;;
  ninety_day_low <- get_ninety_day_low sym ;;
  if Qcltb (or_zero ath) current_price then
    send_alert "ATH" sym current_price
  else if below_or_inf current_price atl then
    send_alert "ATL" sym current_price
  else if Qcltb (or_zero ninety_day_high) current_price then
    send_alert "90-Day ATH" sym current_price
  else if below_or_inf current_price ninety_day_low then
    send_alert "90-Day ATL" sym current_price
  else ret tt.

(** [d.get(key)] on what [json.loads] built from an object: the last
    binding of a repeated key wins. *)
Definition dict_get (fields : list (string * json)) (key : string) : option json :=
  fold_left (fun acc kv => if String.eqb (fst kv) key then Some (snd kv) else acc)
            fields None.

(** [ticker_data.get(key)]: only a dictionary has [get]. *)
Definition method_get (ticker_data : json) (key : string) : M (option json) :=
  match ticker_data with
  | JObject fields => ret (dict_get fields key)
  | _ => raise AttributeError
  end.

(** [symbol in symbols_to_track] for a set of strings: lists and
    dictionaries cannot be hashed. *)
Definition set_contains (symbols_to_track : gset string) (sy : option json)
    : M (option string) :=
  match sy with
  | Some (JString s) =>
      ret (if bool_decide (s ∈ symbols_to_track) then Some s else None)
  | Some (JArray _) | Some (JObject _) => raise TypeError
  | _ => ret None
  end.

(** [float(x)] *)
Definition py_float (x : json) : M Qc :=
  match x with
  | JNumber q => ret q
  | JBool b => ret (if b then 1%Qc else 0%Qc)
  | JString s =>
      match float_of_string env s with
      | Some q => ret q
      | None => raise ValueError
      end
  | _ => raise TypeError
  end.

Definition process_ticker (symbols_to_track : gset string) (ticker_data : json)
    : M unit :=
  sy <- method_get ticker_data "s" ;;
  tracked <- set_contains symbols_to_track sy ;;
  match tracked with
  | Some sym =>
      p <- method_get ticker_data "p" ;;
      current_price <- py_float (default (JNumber 0%Qc) p) ;;
      if Qcltb 0%Qc current_price then
        logger INFO "Received update" ;;
        check_and_notify sym current_price
      else
        logger WARNING "Received invalid price"
  | None => ret tt
  end.

Fixpoint for_each {A} (body : A -> M unit) (l : list A) : M unit :=
  match l with
  | [] => ret tt
  | x :: rest => body x ;; for_each body rest
  end.

Definition process_message (data : json) (symbols_to_track : gset string)
    : M unit :=
  match data with
  | JArray items => for_each (process_ticker symbols_to_track) items
  | _ => logger ERROR "Unexpected data format received from WebSocket."
  end.

Definition json_loads (decoded : option json) : M json :=
  match decoded with
  | Some data => ret data
  | None => raise JSONDecodeError
  end.

(** The [async for message in websocket] loop. *)
Fixpoint receive_loop (symbols_to_track : gset string) (frames : list frame)
    (fin : stream_end) : M unit :=
  match frames with
  | [] =>
      match fin with
      | EndOfStream => ret tt
      | EndRaises e => raise e
      end
  | message :: rest =>
      t <- read_clock ;;
      set_last_message_time t ;;
      match message with
      | FBytes => logger DEBUG "Received ping, sent pong"
      | FText decoded =>
          try_catch is_JSONDecodeError
            (data <- json_loads decoded ;;
             process_message data symbols_to_track)
            (fun _ => logger ERROR "Error decoding JSON")
      end ;;
      receive_loop symbols_to_track rest fin
  end.

Definition handle_websocket (frames : list frame) (fin : stream_end) : M unit :=
  initialize_symbols ;;
  own <- gets (fun w => all_usdt_symbols (ws w)) ;;
  let symbols_to_track := default own symbols_of_interest in
  fun w =>
    match receive_loop symbols_to_track frames fin w with
    | (Ok _, w') => (Ok tt, w')
    | (Raise e, w') =>
        match e with
        | ConnectionClosed =>
            logger WARNING "WebSocket connection closed. Reconnecting..." w'
        | InvalidStatusCode _ =>
            (logger ERROR "Invalid status code. Exiting..." ;; raise e) w'
        | _ =>
            if is_Exception e
            then logger ERROR "Error in WebSocket handler" w'
            else (Raise e, w')
        end
    end.

(** ** main.py *)

Definition websockets_connect : M connect_outcome := fun w =>
  (Ok (connect env (connects (out w))),
   with_out (fun o => MkOutside (clock_reads o) (primary_calls o)
     (secondary_calls o) (history_calls o) (exchange_info_calls o) (S (connects o))
     (exit_queries o) (sleeps o) (log o) (alerts_raised o)) w).

Definition should_exit_is_set : M bool := fun w =>
  (Ok (should_exit env (exit_queries (out w))),
   with_out (fun o => MkOutside (clock_reads o) (primary_calls o)
     (secondary_calls o) (history_calls o) (exchange_info_calls o) (connects o)
     (S (exit_queries o)) (sleeps o) (log o) (alerts_raised o)) w).

(** The body of the [try] inside the [while] of [run]. *)
Definition connect_and_handle : M unit :=
  c <- websockets_connect ;;
  match c with
  | Refused e => raise e
  | Connected frames fin =>
      logger INFO "WebSocket connection established." ;;
      handle_websocket frames fin
  end.

(** How one iteration of the [while] leaves the loop. *)
Inductive loop_control :=
  | Break
  | Continue (retry_count : Z).

(** The [except] clauses of [run], in order. *)
Definition on_connection_error (retry_count : Z) (e : exn) : M loop_control :=
  match e with
  | ConnectionClosed =>
      stop <- should_exit_is_set ;;
      if stop : bool then ret Break
      else logger WARNING "WebSocket connection closed. Reconnecting..." ;;
           ret (Continue retry_count)
  | CancelledError =>
      stop <- should_exit_is_set ;;
      if stop : bool then ret Break
      else logger WARNING "WebSocket connection cancelled. Exiting..." ;;
           ret (Continue retry_count)
  | _ =>
      stop <- should_exit_is_set ;;
      if stop : bool then ret Break
      else
        logger ERROR "WebSocket connection error" ;;
        let retry_count := (retry_count + 1)%Z in
        if (MAX_RETRIES config <? retry_count)%Z then
          logger ERROR "Max retries reached. Exiting..." ;;
          ret Break
        else
          let wait_time := Qcmin (INITIAL_RETRY_DELAY config * pow2 retry_count)%Qc
                                 (MAX_RETRY_DELAY config) in
          logger INFO "Retrying" ;;
          asyncio_sleep wait_time ;;
          ret (Continue retry_count)
  end.

Definition run_iteration (retry_count : Z) : M loop_control :=
  fun w =>
    match connect_and_handle w with
    | (Ok _, w') => (Ok (Continue 0), w')
    | (Raise e, w') => on_connection_error retry_count e w'
    end.

(** [run]: the [while not self.should_exit.is_set()] loop, for at most
    [fuel] iterations.  [Some tt] when the loop has ended, [None] when it
    is still running after [fuel] iterations. *)
Fixpoint run_loop (fuel : nat) (retry_count : Z) : M (option unit) :=
  match fuel with
  | O => ret None
  | S fuel' =>
      stop <- should_exit_is_set ;;
      if stop : bool then ret (Some tt)
      else
        c <- run_iteration retry_count ;;
        match c with
        | Break => ret (Some tt)
        | Continue retry_count' => run_loop fuel' retry_count'
        end
  end.

Definition run (fuel : nat) : M (option unit) := run_loop fuel 0.

End Program.

(** * Further parts of the program *)

(** ** websocket_handler.py: the watchdog *)

(** [self.connection_timeout] *)
Definition connection_timeout : Z := 600.

(** The [while True] of [check_connection], for at most [fuel]
    iterations: [Some tt] when it has closed the connection and left the
    loop, [None] when it is still watching.  The branch that finds the
    connection alive reads the clock a second time, for its log line. *)
Fixpoint check_connection_loop (env : Env) (fuel : nat) : M (option unit) :=
  match fuel with
  | O => ret None
  | S fuel' =>
      last <- gets (fun w => last_message_time (ws w)) ;;
      match last with
      | None =>
          logger DEBUG "No messages received yet, continuing to wait..." ;;
          asyncio_sleep (of_Z 60) ;;
          check_connection_loop env fuel'
      | Some t =>
          now <- read_clock env ;;
          if Qcltb (of_Z connection_timeout) (now - t)%Qc then
            logger WARNING "Connection seems to be dead. Closing..." ;;
            ret (Some tt)
          else
            _ <- read_clock env ;;
            logger DEBUG "Connection alive." ;;
            asyncio_sleep (of_Z 60) ;;
            check_connection_loop env fuel'
      end
  end.

Definition check_connection (env : Env) (fuel : nat) : M (option unit) :=
  asyncio_sleep (of_Z connection_timeout) ;;
  check_connection_loop env fuel.

(** ** main.py: the digest scheduler *)

Definition is_CancelledError (e : exn) : bool :=
  match e with CancelledError => true | _ => false end.

(** [(next_run - now).total_seconds()] of [schedule_daily_digest], on times
    of day in seconds: [next_run] is today at the digest time, or tomorrow
    when [now.time() > digest_time]. *)
Definition wait_seconds (digest_time now_time : Qc) : Qc :=
  let next_run := digest_time in
  let next_run :=
    if Qcltb digest_time now_time then (next_run + of_Z 86400)%Qc else next_run in
  (next_run - now_time)%Qc.

(** [schedule_daily_digest], for at most [fuel] iterations.
    [digest_time] is DAILY_DIGEST_TIME as seconds of the day, and
    [time_of_day] gives the local time of day of a clock reading. *)
Fixpoint schedule_daily_digest (env : Env) (config : Config)
    (time_of_day : Qc -> Qc) (digest_time : Qc) (fuel : nat)
    : M (option unit) :=
  match fuel with
  | O => ret None
  | S fuel' =>
      stop <- should_exit_is_set env ;;
      if stop : bool then ret (Some tt)
      else
        now <- read_clock env ;;
        let wait := wait_seconds digest_time (time_of_day now) in
        broke <- try_catch is_CancelledError
          (asyncio_sleep wait ;;
           stop' <- should_exit_is_set env ;;
           (if stop' : bool then ret tt else send_daily_digest env config) ;;
           ret false)
          (fun _ => ret true) ;;
        if broke : bool then ret (Some tt)
        else schedule_daily_digest env config time_of_day digest_time fuel'
  end.

(** ** alert_manager.py: the body of the digest *)

Definition newline : string := String (Ascii.ascii_of_nat 10) "".

Definition digest_header : string := "Daily Digest" +:+ newline +:+ newline.

Definition no_events_line : string :=
  "No significant events occurred in the past 24 hours.".

(** The line of one event.  [show_price] is the text Python gives a
    float in an f-string; [show_time] gives the ISO text of the event's
    time, which the event of the source holds as a string. *)
Definition event_line (show_price show_time : Qc -> string) (ev : PriceEvent)
    : string :=
  "Symbol: " +:+ symbol ev +:+ ", Price: " +:+ show_price (price ev)
  +:+ ", Time: " +:+ show_time (time ev) +:+ newline.

(** One turn of the [for event_list, event_type in ...] loop. *)
Definition digest_section (show_price show_time : Qc -> string)
    (body : string) (section : list PriceEvent * string) : string :=
  let (event_list, event_type) := section in
  if truthy event_list then
    fold_left (fun b ev => b +:+ event_line show_price show_time ev) event_list
              (body +:+ event_type +:+ ":" +:+ newline)
    +:+ newline
  else body.

Definition _compile_digest_body (show_price show_time : Qc -> string)
    (a : AlertManager) : string :=
  let body :=
    fold_left (digest_section show_price show_time)
      [(ath_events a, "All-Time Highs");
       (atl_events a, "All-Time Lows");
       (ninety_day_ath_events a, "90-Day Highs");
       (ninety_day_atl_events a, "90-Day Lows");
       (price_movement_events a, "Significant Price Movements")]
      digest_header in
  if String.eqb body digest_header then body +:+ no_events_line else body.

(** * Vocabulary of the properties and fixtures *)

(** The oldest stored sample that is still within the timeframe: the
    first one, in arrival order, that the eviction keeps. *)
Definition oldest_retained (current_time timeframe : Z) (stored : list sample)
    : option sample :=
  List.find (fun entry => (current_time - s_timestamp entry <=? timeframe)%Z) stored.

Definition percentage_change (newest : Qc) (oldest : sample) : Qc :=
  ((newest - s_price oldest) / s_price oldest * of_Z 100)%Qc.

(** [send_notification] works on the ledger, the transports, the clock,
    the sleeps and the log only. *)
Definition email_frame (w w' : World) : Prop :=
  tracker w' = tracker w /\ alerts w' = alerts w /\ ws w' = ws w
  /\ alerts_raised (out w') = alerts_raised (out w)
  /\ history_calls (out w') = history_calls (out w).

Definition transport_attempts (w : World) : nat :=
  (primary_calls (out w) + secondary_calls (out w))%nat.

(** The defaults of [config.py]. *)
Definition default_config : Config :=
  MkConfig [] (of_Z 1) 3600 3600 5 (of_Z 1) (of_Z 60).

(** A clock that gives the listed readings, in seconds, one per reading. *)
Definition clock_of (readings : list Z) : nat -> Qc :=
  fun n => of_Z (List.nth n readings 0%Z).

(** An outside where every delivery succeeds, history is empty and the
    first query of [should_exit] already answers yes. *)
Definition calm_env (readings : list Z) : Env :=
  MkEnv (clock_of readings) (fun _ => "2024-01-01") (fun _ => true)
    (fun _ => true) (fun _ _ _ => Ok []) (fun _ => Ok []) (fun _ => None)
    (fun _ => Connected [] EndOfStream) (fun _ => true).

(** As [calm_env], but the primary transport fails on its first call. *)
Definition flaky_env (readings : list Z) : Env :=
  MkEnv (clock_of readings) (fun _ => "2024-01-01")
    (fun n => negb (n =? 0)%nat)
    (fun _ => true) (fun _ _ _ => Ok []) (fun _ => Ok []) (fun _ => None)
    (fun _ => Connected [] EndOfStream) (fun _ => true).

(** As [calm_env], but the primary transport never delivers. *)
Definition failover_env (readings : list Z) : Env :=
  MkEnv (clock_of readings) (fun _ => "2024-01-01") (fun _ => false)
    (fun _ => true) (fun _ _ _ => Ok []) (fun _ => Ok []) (fun _ => None)
    (fun _ => Connected [] EndOfStream) (fun _ => true).

(** Some transport call made between [w] and [w'] delivered. *)
Definition delivered (env : Env) (w w' : World) : Prop :=
  (exists i, (primary_calls (out w) <= i < primary_calls (out w'))%nat
             /\ primary_delivers env i = true)
  \/ (exists i, (secondary_calls (out w) <= i < secondary_calls (out w'))%nat
                /\ secondary_delivers env i = true).

(** The claim as worded: of two notifications with one subject, the first
    delivered and the second within the interval, the second returns
    normally and one transport send attempt has been made in total. *)
Definition one_send_attempt_in_total : Prop :=
  forall (env : Env) (config : Config) (subject : string) (w : World),
    let t1 := time_time env (clock_reads (out w)) in
    let w1 := snd (send_notification env config subject w) in
    let t2 := time_time env (clock_reads (out w1)) in
    let w2 := snd (send_notification env config subject w1) in
    fst (send_notification env config subject w) = Ok tt ->
    delivered env w w1 ->
    (t2 - t1 < of_Z (NOTIFICATION_INTERVAL config))%Qc ->
    fst (send_notification env config subject w1) = Ok tt
    /\ (transport_attempts w2 - transport_attempts w = 1)%nat.

(** A window holding one sample (100 at t = 0), read at t = 1800. *)
Definition one_sample_world : World :=
  with_tracker (fun t => MkPriceTracker (all_time_highs t) (all_time_lows t)
    (ninety_day_highs t) (ninety_day_lows t)
    (<["BTCUSDT" := [Sample (of_Z 100) 0]]> (price_changes t))) new_world.

(** History with two candles for every symbol. *)
Definition history_env : Env :=
  MkEnv (clock_of []) (fun _ => "2024-01-01") (fun _ => true) (fun _ => true)
    (fun _ _ _ => Ok [Kline (of_Z 101) (of_Z 50); Kline (of_Z 99) (of_Z 40)])
    (fun _ => Ok []) (fun _ => None)
    (fun _ => Connected [] EndOfStream) (fun _ => true).

(** Every connection attempt is refused with status 403; the exit flag is
    set from its fifth query on. *)
Definition refusing_env : Env :=
  MkEnv (clock_of []) (fun _ => "2024-01-01") (fun _ => true) (fun _ => true)
    (fun _ _ _ => Ok []) (fun _ => Ok []) (fun _ => None)
    (fun _ => Refused (InvalidStatusCode 403)) (fun n => (4 <=? n)%nat).

(** The state once a frame has arrived: its arrival time is read and
    stored. *)
Definition frame_received (env : Env) (w : World) : World :=
  snd ((t <- read_clock env ;; set_last_message_time t) w).

Definition logged (l : level) (msg : string) (w : World) : World :=
  snd (logger l msg w).

Definition is_array (data : json) : bool :=
  match data with JArray _ => true | _ => false end.

(** The claim for an entry with a non-numeric price, as worded: the error
    does not leave the receive loop. *)
Definition bad_price_stays_in_loop : Prop :=
  forall (env : Env) (config : Config) (tracked : gset string) (sym bad : string)
         (w : World),
    sym ∈ tracked ->
    float_of_string env bad = None ->
    returns (fst (receive_loop env config tracked
      [FText (Some (JArray [JObject [("s", JString sym); ("p", JString bad)]]))]
      EndOfStream w)) = true.

Definition bad_price_frame : frame :=
  FText (Some (JArray [JObject [("s", JString "BTCUSDT"); ("p", JString "abc")]])).

Definition good_price_frame : frame :=
  FText (Some (JArray [JObject [("s", JString "BTCUSDT"); ("p", JNumber (of_Z 102))]])).

Definition btc_config : Config :=
  MkConfig ["BTCUSDT"] (of_Z 1) 3600 3600 5 (of_Z 1) (of_Z 60).

(** A step that leaves the all-time extrema alone and raises no alert. *)
Definition quiet_step (w w' : World) : Prop :=
  all_time_highs (tracker w') = all_time_highs (tracker w)
  /\ all_time_lows (tracker w') = all_time_lows (tracker w)
  /\ alerts_raised (out w') = alerts_raised (out w).

(** The [if]/[elif] chain of [check_and_notify] as the kind it selects. *)
Definition extremum_kind (current_price : Qc)
    (ath atl ninety_day_high ninety_day_low : option Qc) : option string :=
  if Qcltb (or_zero ath) current_price then Some "ATH"
  else if below_or_inf current_price atl then Some "ATL"
  else if Qcltb (or_zero ninety_day_high) current_price then Some "90-Day ATH"
  else if below_or_inf current_price ninety_day_low then Some "90-Day ATL"
  else None.

Definition notify_extremum (env : Env) (config : Config) (sym : string)
    (current_price : Qc) (kind : option string) : M unit :=
  match kind with
  | Some alert_type => send_alert env config alert_type sym current_price
  | None => ret tt
  end.

(** The alerts raised between two states. *)
Definition alerts_between (w w' : World) : list (string * string * Qc) :=
  drop (length (alerts_raised (out w))) (alerts_raised (out w')).

(** The threshold part of [check_and_notify]: at most one alert, of kind
    "Price Movement". *)
Definition movement_alert (env : Env) (config : Config) (sym : string)
    (current_price : Qc) (price_change : option Qc) : M unit :=
  match price_change with
  | Some change =>
      if Qcleb (NOTIFICATION_THRESHOLD config) (Qcabs change)
      then send_alert env config "Price Movement" sym current_price
      else ret tt
  | None => ret tt
  end.

(** A tracker that has every extremum of BTCUSDT cached: all-time and
    90-day high 101, all-time and 90-day low 50. *)
Definition cached_world : World :=
  with_tracker (fun _ => MkPriceTracker
    {["BTCUSDT" := of_Z 101]} {["BTCUSDT" := of_Z 50]}
    {["BTCUSDT" := of_Z 101]} {["BTCUSDT" := of_Z 50]} ∅) new_world.

(** The claim on a crossing, as worded: the cached all-time high becomes
    the new price. *)
Definition high_follows_price : Prop :=
  forall (env : Env) (config : Config) (sym : string) (p a b : Qc) (w : World),
    all_time_highs (tracker w) !! sym = Some a ->
    all_time_lows (tracker w) !! sym = Some b ->
    (a < p)%Qc ->
    fst (check_and_notify env config sym p w) = Ok tt ->
    all_time_highs (tracker (snd (check_and_notify env config sym p w))) !! sym
      = Some p.

(** The state after one historical fetch that wrote nothing. *)
Definition after_fetch (w : World) : World :=
  with_out (fun o => MkOutside (clock_reads o) (primary_calls o)
    (secondary_calls o) (S (history_calls o)) (exchange_info_calls o)
    (connects o) (exit_queries o) (sleeps o) (log o) (alerts_raised o)) w.

(** No extremum of the symbol is known. *)
Definition extrema_unknown (sym : string) (w : World) : Prop :=
  all_time_highs (tracker w) !! sym = None
  /\ all_time_lows (tracker w) !! sym = None
  /\ ninety_day_highs (tracker w) !! sym = None
  /\ ninety_day_lows (tracker w) !! sym = None.

Definition is_extremum_alert (x : string * string * Qc) : bool :=
  let kind := fst (fst x) in
  String.eqb kind "ATH" || String.eqb kind "ATL"
  || String.eqb kind "90-Day ATH" || String.eqb kind "90-Day ATL".

(** The claim as worded: with unknown extrema and empty history, a tick
    raises none of the four extremum events. *)
Definition unknown_is_not_exceedable : Prop :=
  forall (env : Env) (config : Config) (sym : string) (p : Qc) (w : World),
    extrema_unknown sym w ->
    (forall n limit, get_historical_data env n sym limit = Ok []) ->
    (0 < p)%Qc ->
    forallb (fun x => negb (is_extremum_alert x))
      (alerts_between w (snd (check_and_notify env config sym p w))) = true.

(** ** Vocabulary of the further properties *)

(** How [check_and_notify] for one symbol can move the tracker: it
    rewrites the rolling window of the symbol, or writes the all-time pair
    of the symbol, or its 90-day pair. *)
Inductive tracker_step (sym : string) : PriceTracker -> PriceTracker -> Prop :=
  | step_none t : tracker_step sym t t
  | step_window t l :
      tracker_step sym t
        (MkPriceTracker (all_time_highs t) (all_time_lows t)
           (ninety_day_highs t) (ninety_day_lows t)
           (<[sym := l]> (price_changes t)))
  | step_all_time t hi lo :
      tracker_step sym t
        (MkPriceTracker (<[sym := hi]> (all_time_highs t))
           (<[sym := lo]> (all_time_lows t))
           (ninety_day_highs t) (ninety_day_lows t) (price_changes t))
  | step_ninety_day t hi lo :
      tracker_step sym t
        (MkPriceTracker (all_time_highs t) (all_time_lows t)
           (<[sym := hi]> (ninety_day_highs t))
           (<[sym := lo]> (ninety_day_lows t)) (price_changes t))
  | step_trans t1 t2 t3 :
      tracker_step sym t1 t2 -> tracker_step sym t2 t3 -> tracker_step sym t1 t3.

(** The highs and the lows are cached for the same symbols. *)
Definition extrema_paired (t : PriceTracker) : Prop :=
  forall s,
    (is_Some (all_time_highs t !! s) <-> is_Some (all_time_lows t !! s))
    /\ (is_Some (ninety_day_highs t !! s) <-> is_Some (ninety_day_lows t !! s)).

(** The entries of another symbol in the five dictionaries. *)
Definition same_at (s : string) (t t' : PriceTracker) : Prop :=
  all_time_highs t' !! s = all_time_highs t !! s
  /\ all_time_lows t' !! s = all_time_lows t !! s
  /\ ninety_day_highs t' !! s = ninety_day_highs t !! s
  /\ ninety_day_lows t' !! s = ninety_day_lows t !! s
  /\ price_changes t' !! s = price_changes t !! s.

(** What a look-up of the tracker can touch: the tracker, by steps for
    the symbol, and the count of historical fetches, by at most one. *)
Definition lookup_frame (sym : string) (w w' : World) : Prop :=
  tracker_step sym (tracker w) (tracker w')
  /\ alerts w' = alerts w /\ email w' = email w /\ ws w' = ws w
  /\ alerts_raised (out w') = alerts_raised (out w)
  /\ primary_calls (out w') = primary_calls (out w)
  /\ secondary_calls (out w') = secondary_calls (out w)
  /\ (history_calls (out w) <= history_calls (out w')
      <= S (history_calls (out w)))%nat.

(** The four extremum kinds of alert. *)
Definition extremum_kinds : list string :=
  ["ATH"; "ATL"; "90-Day ATH"; "90-Day ATL"].

(** The alerts the threshold test of [check_and_notify] raises for a
    given answer of [update_price_change]. *)
Definition movement_alerts (config : Config) (sym : string) (p : Qc)
    (answer : result (option Qc)) : list (string * string * Qc) :=
  match answer with
  | Ok (Some change) =>
      if Qcleb (NOTIFICATION_THRESHOLD config) (Qcabs change)
      then [("Price Movement", sym, p)] else []
  | _ => []
  end.

(** The delay [_handle_retry] sleeps after the failed try [attempt]. *)
Definition retry_delay (config : Config) (attempt : Z) : Qc :=
  Qcmin (INITIAL_RETRY_DELAY config * pow2 attempt)%Qc (MAX_RETRY_DELAY config).

(** The alert type each bucket stands for in [event_type_mapping]. *)
Definition bucket_name (b : bucket) : string :=
  match b with
  | B_ath => "ATH"
  | B_atl => "ATL"
  | B_ninety_day_ath => "90-Day ATH"
  | B_ninety_day_atl => "90-Day ATL"
  | B_price_movement => "Price Movement"
  end.

(** A computation that keeps the five buckets empty. *)
Definition keeps_empty {A} (m : M A) : Prop :=
  forall w, alerts w = new_alerts -> alerts (snd (m w)) = new_alerts.


(** A connection whose handling returns normally and sleeps nowhere,
    from any state. *)
Definition quiet_connection (env : Env) (config : Config)
    (frames : list frame) (fin : stream_end) : Prop :=
  forall w,
    fst (handle_websocket env config frames fin w) = Ok tt
    /\ sleeps (out (snd (handle_websocket env config frames fin w)))
       = sleeps (out w).

(** An entry of a frame that is an object whose ["s"] is no tracked
    symbol: a string outside the tracked set, a number, a boolean, null,
    or no ["s"] at all. *)
Definition untracked_entry (tracked : gset string) (item : json) : Prop :=
  exists fields,
    item = JObject fields
    /\ match dict_get fields "s" with
       | Some (JString s) => s ∉ tracked
       | Some (JArray _) | Some (JObject _) => False
       | _ => True
       end.


(** The text one section adds to the body. *)
Definition section_text (show_price show_time : Qc -> string)
    (section : list PriceEvent * string) : string :=
  let (event_list, event_type) := section in
  if truthy event_list then
    event_type +:+ ":" +:+ newline
    +:+ fold_right (fun ev rest => event_line show_price show_time ev +:+ rest)
                   "" event_list
    +:+ newline
  else "".

(** The first character of a string. *)
Definition first_char (s : string) : option Ascii.ascii :=
  match s with
  | EmptyString => None
  | String c _ => Some c
  end.

(** * Properties *)

(** ** Comparisons *)

Module NumFacts.

Lemma Qcltb_lt x y : Qcltb x y = true <-> (x < y)%Qc.
Proof.
  unfold Qcltb. rewrite (Qclt_alt x y).
  destruct (x ?= y)%Qc; split; congruence.
Qed.


Lemma Qceqb_eq x y : Qceqb x y = true <-> x = y.
Proof.
  unfold Qceqb. rewrite (Qceq_alt x y).
  destruct (x ?= y)%Qc; split; congruence.
Qed.

Lemma Qcltb_irrefl x : Qcltb x x = false.
Proof.
  destruct (Qcltb x x) eqn:E; [|done].
  apply Qcltb_lt in E. by apply Qclt_not_eq in E.
Qed.

Lemma Qcltb_false_of_le x y : (x <= y)%Qc -> Qcltb y x = false.
Proof.
  intros H. destruct (Qcltb y x) eqn:E; [|done].
  apply Qcltb_lt in E. by apply Qcle_not_lt in H.
Qed.

End NumFacts.
Import NumFacts.

(** Unfolding of the monad's operations and of the state setters. *)
Ltac unfold_monad :=
  unfold bind, ret, raise, modify, gets, try_except, try_finally, try_catch,
    with_tracker, with_alerts, with_email, with_ws, with_out in *.

(** ** The rolling window *)

Lemma within_timeframe_head now tf stored :
  head (within_timeframe now tf stored) = oldest_retained now tf stored.
Proof.
  induction stored as [|e stored IH]; [done|].
  unfold within_timeframe, oldest_retained in *. simpl.
  destruct (now - s_timestamp e <=? tf)%Z; [done | exact IH].
Qed.

Lemma within_timeframe_all now tf stored :
  Forall (fun e => (now - s_timestamp e <= tf)%Z) (within_timeframe now tf stored).
Proof.
  apply List.Forall_forall. intros e He.
  apply List.filter_In in He as [_ He]. by apply Z.leb_le.
Qed.

Lemma within_timeframe_keeps now tf stored e :
  In e stored -> (now - s_timestamp e <= tf)%Z ->
  In e (within_timeframe now tf stored).
Proof.
  intros Hin Hle. apply List.filter_In. split; [done|]. by apply Z.leb_le.
Qed.

Lemma within_timeframe_sub now tf stored e :
  In e (within_timeframe now tf stored) -> In e stored.
Proof. intros He. by apply List.filter_In in He as [? _]. Qed.

(** C3. [update_price_change] stores the samples within the timeframe
    followed by the new one (older samples are evicted first); it returns
    [None] exactly when fewer than two samples are then retained, and
    otherwise [(newest - oldest) / oldest * 100] for the oldest retained
    sample.  Stored prices are those of earlier ticks, hence not zero. *)
Theorem update_price_change_rolling_change
    (env : Env) (w : World) (sym : string) (current_price : Qc) (timeframe : Z) :
  let stored := default [] (price_changes (tracker w) !! sym) in
  let now := py_int (time_time env (clock_reads (out w))) in
  let retained := within_timeframe now timeframe stored
                    ++ [Sample current_price now] in
  Forall (fun e => s_price e <> 0%Qc) stored ->
  price_changes (tracker (snd (update_price_change env sym current_price timeframe w)))
      !! sym = Some retained
  /\ Forall (fun e => (now - s_timestamp e <= timeframe)%Z)
            (within_timeframe now timeframe stored)
  /\ (forall e, In e stored -> (now - s_timestamp e <= timeframe)%Z -> In e retained)
  /\ fst (update_price_change env sym current_price timeframe w)
       = Ok (option_map (percentage_change current_price)
                        (oldest_retained now timeframe stored))
  /\ (fst (update_price_change env sym current_price timeframe w) = Ok None
      <-> (length retained < 2)%nat).
Proof.
  intros stored now retained Hnz.
  assert (Hhead := within_timeframe_head now timeframe stored).
  assert (Hsub := within_timeframe_sub now timeframe stored).
  assert (Hall := within_timeframe_all now timeframe stored).
  assert (Hkeep : forall e, In e stored -> (now - s_timestamp e <= timeframe)%Z ->
                            In e retained).
  { intros e Hin Hle. apply in_or_app. left. by apply within_timeframe_keeps. }
  unfold update_price_change, read_clock, set_price_changes.
  unfold_monad. simpl.
  fold stored. fold now. subst retained.
  destruct (within_timeframe now timeframe stored) as [|oldest rest] eqn:Hk.
  - simpl in *. rewrite <- Hhead. simpl.
    rewrite lookup_insert_eq. repeat split; try done. lia.
  - simpl in Hhead. rewrite <- Hhead.
    replace (1 <? Z.of_nat (length ((oldest :: rest) ++ [Sample current_price now])))%Z
      with true
      by (symmetry; apply Z.ltb_lt; rewrite length_app; simpl; lia).
    simpl.
    assert (Hne : s_price oldest <> 0%Qc).
    { rewrite List.Forall_forall in Hnz. apply Hnz, Hsub. by left. }
    destruct (Qceqb (s_price oldest) 0) eqn:E.
    { by apply Qceqb_eq in E. }
    simpl. rewrite lookup_insert_eq.
    repeat split; try done.
    rewrite length_app. simpl. lia.
Qed.

Lemma update_price_change_rolling_change_witness :
  let env := calm_env [1800]%Z in
  Forall (fun e => s_price e <> 0%Qc) [Sample (of_Z 100) 0]
  /\ fst (update_price_change env "BTCUSDT" (of_Z 102) 3600 one_sample_world)
     = Ok (Some (percentage_change (of_Z 102) (Sample (of_Z 100) 0))).
Proof.
  intros env.
  assert (Hnz : Forall (fun e => s_price e <> 0%Qc) [Sample (of_Z 100) 0]).
  { constructor; [|constructor]. intros E. apply (f_equal this) in E.
    vm_compute in E. discriminate. }
  split; [exact Hnz|].
  exact (proj1 (proj2 (proj2 (proj2
    (update_price_change_rolling_change env one_sample_world "BTCUSDT"
       (of_Z 102) 3600 Hnz))))).
Defined.

(** The change of that run is 2 per cent. *)
Example rolling_change_two_percent :
  Qceqb (percentage_change (of_Z 102) (Sample (of_Z 100) 0)) (of_Z 2) = true.
Proof. by vm_compute. Qed.

(** Stored prices stay non-zero as long as the ticks have non-zero prices,
    which [process_message] ensures by its test [current_price > 0]. *)
Lemma update_price_change_keeps_nonzero env sym p tf w :
  p <> 0%Qc ->
  Forall (fun e => s_price e <> 0%Qc)
         (default [] (price_changes (tracker w) !! sym)) ->
  Forall (fun e => s_price e <> 0%Qc)
         (default [] (price_changes
            (tracker (snd (update_price_change env sym p tf w))) !! sym)).
Proof.
  intros Hp Hnz.
  assert (Hstored : price_changes
            (tracker (snd (update_price_change env sym p tf w))) !! sym
          = Some (within_timeframe
                    (py_int (time_time env (clock_reads (out w)))) tf
                    (default [] (price_changes (tracker w) !! sym))
                  ++ [Sample p (py_int (time_time env (clock_reads (out w))))])).
  { unfold update_price_change, read_clock, set_price_changes.
    unfold_monad. simpl.
    repeat match goal with
           | |- context [if ?c then _ else _] => destruct c
           end; simpl; by rewrite lookup_insert_eq. }
  rewrite Hstored. simpl. apply Forall_app. split.
  - apply List.Forall_forall. intros e He.
    apply within_timeframe_sub in He.
    rewrite List.Forall_forall in Hnz. by apply Hnz.
  - by constructor.
Qed.

(** Three ticks, at t = 0, 1800 and 4000 s, timeframe 3600 s: no signal at
    the first, and at the third the sample of t = 0 has left the window,
    so the change is taken from the sample of t = 1800. *)
Example rolling_change_after_eviction :
  let env := calm_env [0; 1800; 4000]%Z in
  let w1 := snd (update_price_change env "BTCUSDT" (of_Z 100) 3600 new_world) in
  let w2 := snd (update_price_change env "BTCUSDT" (of_Z 102) 3600 w1) in
  let r3 := update_price_change env "BTCUSDT" (of_Z 103) 3600 w2 in
  fst (update_price_change env "BTCUSDT" (of_Z 100) 3600 new_world) = Ok None
  /\ fst (update_price_change env "BTCUSDT" (of_Z 102) 3600 w1)
     = Ok (Some (percentage_change (of_Z 102) (Sample (of_Z 100) 0)))
  /\ fst r3 = Ok (Some (percentage_change (of_Z 103) (Sample (of_Z 102) 1800)))
  /\ price_changes (tracker (snd r3)) !! "BTCUSDT"
     = Some [Sample (of_Z 102) 1800; Sample (of_Z 103) 4000].
Proof. by vm_compute. Qed.

(** ** Lazy population of the all-time extrema *)

Lemma cached_or_fetch_hit (field : PriceTracker -> gmap string Qc)
    (fetch : M unit) (sym : string) (a : Qc) (w : World) :
  field (tracker w) !! sym = Some a ->
  cached_or_fetch field fetch sym w = (Ok (Some a), w).
Proof.
  intros H. unfold cached_or_fetch. unfold_monad. by rewrite !H.
Qed.

(** C10. For a symbol without cached all-time high, one
    [get_all_time_high] that finds non-empty history makes one historical
    fetch and fills both the all-time high and the all-time low of that
    symbol; a following [get_all_time_low] answers from the cache and
    changes nothing; the extrema of other symbols, the 90-day extrema and
    the rolling windows are untouched. *)
Theorem get_all_time_high_populates_both
    (env : Env) (w : World) (sym : string) (k : kline) (ks : list kline) :
  all_time_highs (tracker w) !! sym = None ->
  get_historical_data env (history_calls (out w)) sym 1000 = Ok (k :: ks) ->
  let hi := py_max (k_high k) (map k_high ks) in
  let lo := py_min (k_low k) (map k_low ks) in
  let w1 := snd (get_all_time_high env sym w) in
  fst (get_all_time_high env sym w) = Ok (Some hi)
  /\ all_time_highs (tracker w1) !! sym = Some hi
  /\ all_time_lows (tracker w1) !! sym = Some lo
  /\ history_calls (out w1) = S (history_calls (out w))
  /\ get_all_time_low env sym w1 = (Ok (Some lo), w1)
  /\ (forall other, other <> sym ->
        all_time_highs (tracker w1) !! other = all_time_highs (tracker w) !! other
        /\ all_time_lows (tracker w1) !! other = all_time_lows (tracker w) !! other)
  /\ ninety_day_highs (tracker w1) = ninety_day_highs (tracker w)
  /\ ninety_day_lows (tracker w1) = ninety_day_lows (tracker w)
  /\ price_changes (tracker w1) = price_changes (tracker w).
Proof.
  intros Hnone Hhist hi lo w1.
  assert (Hrun : get_all_time_high env sym w
    = (Ok (Some hi),
       MkWorld (MkPriceTracker (<[sym := hi]> (all_time_highs (tracker w)))
                 (<[sym := lo]> (all_time_lows (tracker w)))
                 (ninety_day_highs (tracker w)) (ninety_day_lows (tracker w))
                 (price_changes (tracker w)))
               (alerts w) (email w) (ws w)
               (MkOutside (clock_reads (out w)) (primary_calls (out w))
                 (secondary_calls (out w)) (S (history_calls (out w)))
                 (exchange_info_calls (out w)) (connects (out w))
                 (exit_queries (out w)) (sleeps (out w)) (log (out w))
                 (alerts_raised (out w))))).
  { unfold get_all_time_high, cached_or_fetch, update_all_time_high_low,
      api_get_historical_data, set_all_time.
    unfold_monad. rewrite Hnone, Hhist. simpl.
    by rewrite lookup_insert_eq. }
  subst w1. rewrite Hrun. simpl.
  repeat split; try done.
  - by rewrite lookup_insert_eq.
  - by rewrite lookup_insert_eq.
  - apply cached_or_fetch_hit. simpl. by rewrite lookup_insert_eq.
  - by rewrite lookup_insert_ne.
  - by rewrite lookup_insert_ne.
Qed.

Lemma get_all_time_high_populates_both_witness :
  let w1 := snd (get_all_time_high history_env "BTCUSDT" new_world) in
  fst (get_all_time_high history_env "BTCUSDT" new_world) = Ok (Some (of_Z 101))
  /\ all_time_lows (tracker w1) !! "BTCUSDT" = Some (of_Z 40)
  /\ history_calls (out w1) = 1%nat
  /\ get_all_time_low history_env "BTCUSDT" w1 = (Ok (Some (of_Z 40)), w1).
Proof.
  intros w1.
  assert (H := get_all_time_high_populates_both history_env new_world "BTCUSDT"
                 (Kline (of_Z 101) (of_Z 50)) [Kline (of_Z 99) (of_Z 40)]).
  simpl in H.
  destruct H as (H1 & _ & H3 & H4 & H5 & _).
  - reflexivity.
  - reflexivity.
  - fold w1 in H3, H4, H5. repeat split; assumption.
Defined.

(** ** What a notification can touch *)

Lemma email_frame_refl w : email_frame w w.
Proof. by repeat split. Qed.

Lemma email_frame_trans w1 w2 w3 :
  email_frame w1 w2 -> email_frame w2 w3 -> email_frame w1 w3.
Proof.
  intros (?&?&?&?&?) (?&?&?&?&?). repeat split; congruence.
Qed.

Lemma send_attempts_frame env config subject t attempts w :
  email_frame w (snd (send_attempts env config subject t attempts w)).
Proof.
  revert w. induction attempts as [|attempt rest IH]; intros w.
  - apply email_frame_refl.
  - simpl. unfold _send_email, _send_via_secondary_server, secondary_transport,
      _handle_retry, asyncio_sleep, logger, set_last_notification_time.
    unfold_monad. simpl.
    destruct (primary_delivers env (primary_calls (out w))); simpl.
    + by repeat split.
    + destruct (attempt <? MAX_RETRIES config - 1)%Z; simpl.
      * eapply email_frame_trans; [|apply IH]. by repeat split.
      * destruct (secondary_delivers env (secondary_calls (out w))); simpl.
        -- eapply email_frame_trans; [|apply IH]. by repeat split.
        -- by repeat split.
Qed.

Lemma send_notification_frame env config subject w :
  email_frame w (snd (send_notification env config subject w)).
Proof.
  unfold send_notification, read_clock, logger. unfold_monad. simpl.
  destruct (rate_limited _ _ _ _); simpl.
  - by repeat split.
  - eapply email_frame_trans; [|apply send_attempts_frame]. by repeat split.
Qed.

(** ** The daily digest *)

(** C6. Whatever [send_daily_digest] does, return or raise, the five
    buckets are empty afterwards; tracker and socket-handler state are
    as before. *)
Theorem send_daily_digest_clears_buckets (env : Env) (config : Config) (w : World) :
  let w' := snd (send_daily_digest env config w) in
  ath_events (alerts w') = []
  /\ atl_events (alerts w') = []
  /\ ninety_day_ath_events (alerts w') = []
  /\ ninety_day_atl_events (alerts w') = []
  /\ price_movement_events (alerts w') = []
  /\ tracker w' = tracker w
  /\ ws w' = ws w.
Proof.
  unfold send_daily_digest, read_clock, _clear_recorded_events.
  unfold_monad. simpl.
  match goal with
  | |- context [send_notification env config ?s ?w0] =>
      pose proof (send_notification_frame env config s w0) as (Ht & _ & Hw & _);
      destruct (send_notification env config s w0) as [[[]|e] w1]
  end; simpl in *.
  - by repeat split.
  - destruct (is_Exception e); simpl; by repeat split.
Qed.

(** ** Rate limiting and delivery *)

Lemma send_notification_rate_limited env config subject w last :
  last_notification_time (email w) !! subject = Some last ->
  (time_time env (clock_reads (out w)) - last
     < of_Z (NOTIFICATION_INTERVAL config))%Qc ->
  fst (send_notification env config subject w) = Ok tt
  /\ primary_calls (out (snd (send_notification env config subject w)))
       = primary_calls (out w)
  /\ secondary_calls (out (snd (send_notification env config subject w)))
       = secondary_calls (out w)
  /\ email (snd (send_notification env config subject w)) = email w.
Proof.
  intros Hlast Hlt.
  unfold send_notification, read_clock, logger, rate_limited.
  unfold_monad. simpl. rewrite Hlast.
  apply Qcltb_lt in Hlt. rewrite Hlt. by simpl.
Qed.

(** The retry loop when the primary transport delivers at its [k]-th
    further call: [k] failed tries, each followed by a back-off sleep, then
    the delivery, which writes the ledger; the secondary is not used. *)
Lemma send_attempts_primary_delivers env config subject t :
  forall (k a n : nat) (w : World),
  (k < n)%nat ->
  Z.of_nat (a + n) = MAX_RETRIES config ->
  (forall j, (j < k)%nat ->
     primary_delivers env (primary_calls (out w) + j) = false) ->
  primary_delivers env (primary_calls (out w) + k) = true ->
  let w' := snd (send_attempts env config subject t
                   (map Z.of_nat (seq a n)) w) in
  fst (send_attempts env config subject t (map Z.of_nat (seq a n)) w) = Ok tt
  /\ last_notification_time (email w') !! subject = Some t
  /\ primary_calls (out w') = (primary_calls (out w) + k + 1)%nat
  /\ secondary_calls (out w') = secondary_calls (out w)
  /\ clock_reads (out w') = clock_reads (out w).
Proof.
  induction k as [|k IH]; intros a n w Hk Hmax Hfail Hok;
    destruct n as [|n]; try lia; simpl;
    unfold _send_email, logger, set_last_notification_time, _handle_retry,
      asyncio_sleep; unfold_monad; simpl.
  - rewrite Nat.add_0_r in Hok. rewrite Hok. simpl.
    rewrite lookup_insert_eq. repeat split; try done; lia.
  - assert (H0 : primary_delivers env (primary_calls (out w)) = false).
    { rewrite <- (Hfail 0%nat); [f_equal; lia | lia]. }
    rewrite H0. simpl.
    replace (Z.of_nat a <? MAX_RETRIES config - 1)%Z with true
      by (symmetry; apply Z.ltb_lt; lia).
    simpl.
    match goal with
    | |- context [send_attempts env config subject t _ ?w0] =>
        specialize (IH (S a) n w0)
    end.
    simpl in IH.
    destruct IH as (H1 & H2 & H3 & H4 & H5); try lia.
    + intros j Hj. rewrite <- (Hfail (S j)); [f_equal; lia | lia].
    + rewrite <- Hok. f_equal. lia.
    + repeat split; try done. lia.
Qed.

(** ** Two notifications within the interval *)

(** C5, as worded, fails: when the first notification is delivered on the
    second try of the primary transport, two send attempts have been made. *)
Lemma one_send_attempt_in_total_fails : ~ one_send_attempt_in_total.
Proof.
  intros H.
  specialize (H (flaky_env [0; 10]%Z) default_config "ATH Alert: ETHUSDT" new_world).
  simpl in H.
  destruct H as [_ H].
  - by vm_compute.
  - left. exists 1%nat. vm_compute. repeat split; first [reflexivity | lia].
  - apply Qcltb_lt. by vm_compute.
  - vm_compute in H. discriminate.
Qed.

(** The run behind it: default configuration, readings at 0 s and 10 s,
    the primary transport failing once.  The first notification is
    delivered on the second try and written to the ledger, the second is
    suppressed, and two send attempts have been made. *)
Example delivery_on_second_try :
  let env := flaky_env [0; 10]%Z in
  let subject := "ATH Alert: ETHUSDT" in
  let w1 := snd (send_notification env default_config subject new_world) in
  let w2 := snd (send_notification env default_config subject w1) in
  fst (send_notification env default_config subject new_world) = Ok tt
  /\ last_notification_time (email w1) !! subject = Some (of_Z 0)
  /\ transport_attempts w1 = 2%nat
  /\ fst (send_notification env default_config subject w1) = Ok tt
  /\ transport_attempts w2 = 2%nat.
Proof. by vm_compute. Qed.

(** C5, amended. When a notification that is not rate-limited is delivered
    by the primary transport after [k] failed tries, the ledger holds the
    time of that call, and a second notification with the same subject
    within the interval returns normally without any transport call: the
    send attempts in total are the [k + 1] of the first call, one when the
    first try delivers. *)
Theorem second_notification_suppressed
    (env : Env) (config : Config) (subject : string) (w : World) (k : nat) :
  let t1 := time_time env (clock_reads (out w)) in
  let w1 := snd (send_notification env config subject w) in
  let t2 := time_time env (clock_reads (out w1)) in
  let w2 := snd (send_notification env config subject w1) in
  rate_limited config (last_notification_time (email w)) subject t1 = false ->
  (k < Z.to_nat (MAX_RETRIES config))%nat ->
  (forall j, (j < k)%nat ->
     primary_delivers env (primary_calls (out w) + j) = false) ->
  primary_delivers env (primary_calls (out w) + k) = true ->
  (t2 - t1 < of_Z (NOTIFICATION_INTERVAL config))%Qc ->
  fst (send_notification env config subject w) = Ok tt
  /\ last_notification_time (email w1) !! subject = Some t1
  /\ fst (send_notification env config subject w1) = Ok tt
  /\ primary_calls (out w2) = primary_calls (out w1)
  /\ secondary_calls (out w2) = secondary_calls (out w1)
  /\ (transport_attempts w2 - transport_attempts w = k + 1)%nat.
Proof.
  intros t1 w1 t2 w2 Hfree Hk Hfail Hok Hlt.
  assert (Hfirst : fst (send_notification env config subject w) = Ok tt
    /\ last_notification_time (email w1) !! subject = Some t1
    /\ primary_calls (out w1) = (primary_calls (out w) + k + 1)%nat
    /\ secondary_calls (out w1) = secondary_calls (out w)
    /\ clock_reads (out w1) = S (clock_reads (out w))).
  { subst w1. unfold send_notification, read_clock. unfold_monad. simpl.
    fold t1. rewrite Hfree. unfold py_range.
    match goal with
    | |- context [send_attempts env config subject t1 _ ?w0] =>
        pose proof (send_attempts_primary_delivers env config subject t1
                      k 0 (Z.to_nat (MAX_RETRIES config)) w0 Hk) as Hs
    end.
    simpl in Hs. destruct Hs as (?&?&?&?&?); try done. lia. }
  destruct Hfirst as (Hr1 & Hledger & Hp1 & Hs1 & Hc1).
  destruct (send_notification_rate_limited env config subject w1 t1 Hledger Hlt)
    as (Hr2 & Hp2 & Hs2 & _).
  fold w2 in Hp2, Hs2.
  repeat split; try done.
  unfold transport_attempts. lia.
Qed.

(** The scenario of the specification: interval 3600 s, two notifications
    for one subject 10 s apart, the first delivered at once. *)
Lemma second_notification_suppressed_witness :
  let env := calm_env [0; 10]%Z in
  let subject := "ATH Alert: ETHUSDT" in
  let w1 := snd (send_notification env default_config subject new_world) in
  let w2 := snd (send_notification env default_config subject w1) in
  primary_delivers env 0 = true
  /\ fst (send_notification env default_config subject w1) = Ok tt
  /\ (transport_attempts w2 - transport_attempts new_world = 0 + 1)%nat.
Proof.
  intros env subject w1 w2.
  assert (H := second_notification_suppressed env default_config subject
                 new_world 0).
  simpl in H.
  destruct H as (_ & _ & H2 & _ & _ & H5).
  - reflexivity.
  - vm_compute. lia.
  - intros j Hj. lia.
  - reflexivity.
  - vm_compute. reflexivity.
  - split; [reflexivity|]. split; [exact H2 | exact H5].
Defined.

(** ** Delivery through the secondary server *)

(** The retry loop when every try of the primary transport fails and the
    secondary server delivers, for any state: the loop ends normally after
    one secondary call and the ledger is as it was. *)
Lemma send_attempts_secondary_delivers env config subject t :
  forall (n a : nat) (w : World),
  (0 < n)%nat ->
  Z.of_nat (a + n) = MAX_RETRIES config ->
  (forall j, (j < n)%nat ->
     primary_delivers env (primary_calls (out w) + j) = false) ->
  secondary_delivers env (secondary_calls (out w)) = true ->
  let w' := snd (send_attempts env config subject t
                   (map Z.of_nat (seq a n)) w) in
  fst (send_attempts env config subject t (map Z.of_nat (seq a n)) w) = Ok tt
  /\ email w' = email w
  /\ primary_calls (out w') = (primary_calls (out w) + n)%nat
  /\ secondary_calls (out w') = S (secondary_calls (out w)).
Proof.
  induction n as [|n IH]; intros a w Hpos Hmax Hfail Hsec; [lia|].
  assert (H0 : primary_delivers env (primary_calls (out w)) = false).
  { rewrite <- (Hfail 0%nat); [f_equal; lia | lia]. }
  simpl.
  unfold _send_email, logger, set_last_notification_time, _handle_retry,
    asyncio_sleep, _send_via_secondary_server, secondary_transport.
  unfold_monad. simpl. rewrite H0. simpl.
  destruct n as [|n].
  - replace (Z.of_nat a <? MAX_RETRIES config - 1)%Z with false
      by (symmetry; apply Z.ltb_ge; lia).
    simpl. rewrite Hsec. simpl. repeat split; try done. lia.
  - replace (Z.of_nat a <? MAX_RETRIES config - 1)%Z with true
      by (symmetry; apply Z.ltb_lt; lia).
    remember (map Z.of_nat (seq (S a) (S n))) as rest eqn:Hrest.
    simpl.
    match goal with
    | |- context [send_attempts env config subject t rest ?w0] =>
        specialize (IH (S a) w0)
    end.
    cbv zeta in IH. rewrite <- Hrest in IH.
    destruct IH as (H1 & H2 & H3 & H4).
    + lia.
    + lia.
    + intros j Hj. simpl. rewrite <- (Hfail (S j)); [f_equal; lia | lia].
    + exact Hsec.
    + simpl in H2, H3, H4. repeat split; try done. lia.
Qed.

Lemma send_notification_secondary_delivers env config subject w :
  (1 <= MAX_RETRIES config)%Z ->
  rate_limited config (last_notification_time (email w)) subject
    (time_time env (clock_reads (out w))) = false ->
  (forall j, (j < Z.to_nat (MAX_RETRIES config))%nat ->
     primary_delivers env (primary_calls (out w) + j) = false) ->
  secondary_delivers env (secondary_calls (out w)) = true ->
  fst (send_notification env config subject w) = Ok tt
  /\ secondary_calls (out (snd (send_notification env config subject w)))
     = S (secondary_calls (out w))
  /\ last_notification_time (email (snd (send_notification env config subject w)))
     = last_notification_time (email w).
Proof.
  intros Hmax Hfree Hfail Hsec.
  unfold send_notification, read_clock. unfold_monad. simpl.
  rewrite Hfree. unfold py_range.
  destruct (Z.to_nat (MAX_RETRIES config)) as [|n] eqn:En; [lia|].
  match goal with
  | |- context [send_attempts env config subject ?t0 _ ?w0] =>
      pose proof (send_attempts_secondary_delivers env config subject t0
                    (S n) 0 w0) as Hs
  end.
  cbv zeta in Hs.
  destruct Hs as (H1 & H2 & _ & H4).
  - lia.
  - lia.
  - intros j Hj. simpl. apply Hfail. lia.
  - exact Hsec.
  - repeat split; try done. rewrite H2. reflexivity.
Qed.

(** C7 at a concrete run: default configuration, the primary transport
    fails on each of its five tries, the secondary server delivers.  The
    call returns normally, the delivery has happened, and the ledger has
    no entry for the subject; a second notification 10 s later is
    therefore sent again, through six more transport calls. *)
Theorem secondary_delivery_leaves_ledger :
  let env := failover_env [100; 110]%Z in
  let subject := "ATH Alert: ETHUSDT" in
  let w1 := snd (send_notification env default_config subject new_world) in
  let w2 := snd (send_notification env default_config subject w1) in
  fst (send_notification env default_config subject new_world) = Ok tt
  /\ primary_calls (out w1) = 5%nat
  /\ secondary_calls (out w1) = 1%nat
  /\ secondary_delivers env 0 = true
  /\ last_notification_time (email w1) !! subject = None
  /\ transport_attempts w2 = 12%nat.
Proof. by vm_compute. Qed.

(** The same run with a primary transport that delivers writes the
    ledger. *)
Example primary_delivery_writes_ledger :
  let env := calm_env [100; 110]%Z in
  let subject := "ATH Alert: ETHUSDT" in
  let w1 := snd (send_notification env default_config subject new_world) in
  last_notification_time (email w1) !! subject = Some (of_Z 100).
Proof. by vm_compute. Qed.

(** ** Recording events for the digest *)

(** [_record_event] appends only to a bucket that already holds an event:
    an empty bucket stays empty. *)
Lemma record_event_keeps_empty ev w :
  alerts w = new_alerts ->
  alerts (snd (_record_event ev w)) = new_alerts.
Proof.
  intros H. unfold _record_event. unfold_monad. simpl. rewrite H.
  by destruct (event_type_mapping (event_type ev)) as [[]|].
Qed.

Lemma send_alert_keeps_empty env config alert_type sym p w :
  alerts w = new_alerts ->
  alerts (snd (send_alert env config alert_type sym p w)) = new_alerts.
Proof.
  intros H. unfold send_alert, note_alert, read_clock. unfold_monad. simpl.
  match goal with
  | |- context [send_notification env config ?s ?w0] =>
      pose proof (send_notification_frame env config s w0) as (_ & Ha & _);
      destruct (send_notification env config s w0) as [[[]|e] w1]
  end; simpl in *.
  - rewrite Ha, H. by destruct (event_type_mapping alert_type) as [[]|].
  - destruct (is_Exception e); simpl; congruence.
Qed.

(** C2 at the scenario of the specification: interval 3600 s, two ATH
    events for ETHUSDT 10 s apart on a fresh alert manager.  Both calls of
    [send_alert] return normally, only the first reaches the transport,
    and the ATH bucket holds neither event. *)
Theorem send_alert_records_nothing :
  let env := calm_env [0; 0; 10; 10]%Z in
  let w1 := snd (send_alert env default_config "ATH" "ETHUSDT" (of_Z 3000) new_world) in
  let w2 := snd (send_alert env default_config "ATH" "ETHUSDT" (of_Z 3000) w1) in
  fst (send_alert env default_config "ATH" "ETHUSDT" (of_Z 3000) new_world) = Ok tt
  /\ fst (send_alert env default_config "ATH" "ETHUSDT" (of_Z 3000) w1) = Ok tt
  /\ transport_attempts w2 = 1%nat
  /\ event_type_mapping "ATH" = Some B_ath
  /\ ath_events (alerts w1) = []
  /\ ath_events (alerts w2) = [].
Proof. by vm_compute. Qed.

(** ** The run loop and a refused handshake *)

(** One iteration on a refused handshake, for any state: unless the exit
    flag is set or the retries are used up, the loop sleeps for the
    back-off delay and goes on with the next connection attempt. *)
Lemma run_iteration_refused env config retry_count code w :
  connect env (connects (out w)) = Refused (InvalidStatusCode code) ->
  should_exit env (exit_queries (out w)) = false ->
  (retry_count + 1 <= MAX_RETRIES config)%Z ->
  let r := run_iteration env config retry_count w in
  fst r = Ok (Continue (retry_count + 1))
  /\ sleeps (out (snd r))
     = sleeps (out w)
       ++ [Qcmin (INITIAL_RETRY_DELAY config * pow2 (retry_count + 1))%Qc
                 (MAX_RETRY_DELAY config)].
Proof.
  intros Hc Hx Hle.
  unfold run_iteration, connect_and_handle, websockets_connect,
    on_connection_error, should_exit_is_set, logger, asyncio_sleep.
  unfold_monad. simpl. rewrite Hc. simpl. rewrite Hx. simpl.
  replace (MAX_RETRIES config <? retry_count + 1)%Z with false
    by (symmetry; apply Z.ltb_ge; lia).
  by simpl.
Qed.

(** C9 at a concrete run: default configuration (MAX_RETRIES = 5), a
    server that rejects every handshake with status 403.  The first
    iteration does not end the loop: it sleeps 2 s and connects again, is
    refused again and sleeps 4 s; the loop ends only when the exit flag
    is found set. *)
Theorem refused_handshake_is_retried :
  let r := run refusing_env default_config 3 new_world in
  connect refusing_env 0 = Refused (InvalidStatusCode 403)
  /\ fst (run_iteration refusing_env default_config 0 new_world)
     = Ok (Continue 1)
  /\ fst r = Ok (Some tt)
  /\ connects (out (snd r)) = 2%nat
  /\ sleeps (out (snd r)) = [of_Z 2; of_Z 4].
Proof. by vm_compute. Qed.

(** The same status raised while the connection is being handled:
    [handle_websocket] logs "Exiting..." and re-raises, and the run loop
    handles it as any other error, with a sleep and a new attempt. *)
Example invalid_status_in_handler_is_retried :
  let env :=
    MkEnv (clock_of []) (fun _ => "2024-01-01") (fun _ => true) (fun _ => true)
      (fun _ _ _ => Ok []) (fun _ => Ok []) (fun _ => None)
      (fun _ => Connected [] (EndRaises (InvalidStatusCode 403)))
      (fun n => (4 <=? n)%nat) in
  let r := run env default_config 3 new_world in
  fst (handle_websocket env default_config [] (EndRaises (InvalidStatusCode 403))
         new_world) = Raise (InvalidStatusCode 403)
  /\ fst r = Ok (Some tt)
  /\ connects (out (snd r)) = 2%nat
  /\ sleeps (out (snd r)) = [of_Z 2; of_Z 4].
Proof. by vm_compute. Qed.

(** ** Malformed frames *)

(** It does leave it: [float] raises [ValueError], which no handler
    inside the loop catches. *)
Lemma bad_price_stays_in_loop_fails : ~ bad_price_stays_in_loop.
Proof.
  intros H.
  specialize (H (calm_env []) default_config {["BTCUSDT"]} "BTCUSDT" "abc"
                new_world).
  vm_compute in H. specialize (H ltac:(set_solver) eq_refl). discriminate.
Qed.

(** The three kinds of malformed frame, for any state.  A frame that
    cannot be decoded and a frame whose JSON is not an array are logged and
    skipped: the receive loop goes on with the frames that follow.  An
    entry of a tracked symbol with a non-numeric price string raises
    [ValueError] out of the receive loop, whatever frames follow: they are
    not processed. *)
Theorem malformed_frames
    (env : Env) (config : Config) (tracked : gset string)
    (rest : list frame) (fin : stream_end) (w : World) :
  receive_loop env config tracked (FText None :: rest) fin w
    = receive_loop env config tracked rest fin
        (logged ERROR "Error decoding JSON" (frame_received env w))
  /\ (forall data, is_array data = false ->
        receive_loop env config tracked (FText (Some data) :: rest) fin w
        = receive_loop env config tracked rest fin
            (logged ERROR "Unexpected data format received from WebSocket."
               (frame_received env w)))
  /\ (forall fields sym bad more,
        dict_get fields "s" = Some (JString sym) ->
        sym ∈ tracked ->
        dict_get fields "p" = Some (JString bad) ->
        float_of_string env bad = None ->
        receive_loop env config tracked
          (FText (Some (JArray (JObject fields :: more))) :: rest) fin w
        = (Raise ValueError, frame_received env w)).
Proof.
  split; [|split].
  - simpl. unfold frame_received, logged, read_clock, set_last_message_time,
      logger, json_loads. unfold_monad. by simpl.
  - intros data Hd. simpl.
    unfold frame_received, logged, read_clock, set_last_message_time,
      logger, json_loads, process_message. unfold_monad. simpl.
    by destruct data.
  - intros fields sym bad more Hs Hin Hp Hf. simpl.
    unfold frame_received, read_clock, set_last_message_time, json_loads,
      process_message. unfold_monad. simpl.
    unfold process_ticker, method_get, set_contains, py_float.
    unfold_monad. simpl.
    rewrite Hs. rewrite (bool_decide_eq_true_2 _ Hin). rewrite Hp. simpl.
    rewrite Hf. by simpl.
Qed.

Lemma malformed_frames_witness :
  let env := calm_env [5]%Z in
  "BTCUSDT" ∈ ({["BTCUSDT"]} : gset string)
  /\ float_of_string env "abc" = None
  /\ receive_loop env default_config {["BTCUSDT"]}
       [bad_price_frame; good_price_frame] EndOfStream new_world
     = (Raise ValueError, frame_received env new_world).
Proof.
  intros env.
  assert (Hin : "BTCUSDT" ∈ ({["BTCUSDT"]} : gset string))
    by (apply elem_of_singleton; reflexivity).
  split; [exact Hin|]. split; [reflexivity|].
  apply (proj2 (proj2 (malformed_frames env default_config {["BTCUSDT"]}
                         [good_price_frame] EndOfStream new_world))
           [("s", JString "BTCUSDT"); ("p", JString "abc")] "BTCUSDT" "abc" []).
  - reflexivity.
  - exact Hin.
  - reflexivity.
  - reflexivity.
Defined.

(** C8 at a concrete run: BTCUSDT is tracked, and the connection delivers
    a frame whose entry has the price string "abc", then a well-formed
    frame.  The error leaves the receive loop; the handler around the loop
    logs it and returns normally, and the frame that followed has not been
    looked at (one arrival time read, no alert), although processed on its
    own that frame raises an alert.  The undecodable frame and the
    non-array frame do not end the loop: the frame after them is
    processed. *)
Theorem bad_price_ends_connection :
  let env := calm_env [5; 6; 7; 8; 9]%Z in
  let r := handle_websocket env btc_config [bad_price_frame; good_price_frame]
             EndOfStream new_world in
  let r' := handle_websocket env btc_config [good_price_frame]
              EndOfStream new_world in
  let undecodable := handle_websocket env btc_config
                       [FText None; good_price_frame] EndOfStream new_world in
  let not_array := handle_websocket env btc_config
                     [FText (Some (JObject [])); good_price_frame]
                     EndOfStream new_world in
  float_of_string env "abc" = None
  /\ fst r = Ok tt
  /\ last (log (out (snd r))) = Some (ERROR, "Error in WebSocket handler")
  /\ last_message_time (ws (snd r)) = Some (of_Z 5)
  /\ alerts_raised (out (snd r)) = []
  /\ fst r' = Ok tt
  /\ alerts_raised (out (snd r')) = [("ATH", "BTCUSDT", of_Z 102)]
  /\ alerts_raised (out (snd undecodable)) = [("ATH", "BTCUSDT", of_Z 102)]
  /\ alerts_raised (out (snd not_array)) = [("ATH", "BTCUSDT", of_Z 102)].
Proof. by vm_compute. Qed.

(** ** The coordinator and the cached extrema *)

Lemma quiet_step_trans w1 w2 w3 :
  quiet_step w1 w2 -> quiet_step w2 w3 -> quiet_step w1 w3.
Proof. intros (?&?&?) (?&?&?). repeat split; congruence. Qed.

Lemma update_price_change_quiet env sym p tf w :
  quiet_step w (snd (update_price_change env sym p tf w)).
Proof.
  unfold update_price_change, read_clock, set_price_changes.
  unfold_monad. simpl.
  repeat match goal with
         | |- context [if ?c then _ else _] => destruct c
         end; by repeat split.
Qed.

Lemma ninety_day_fetch_quiet env field sym w :
  quiet_step w (snd (cached_or_fetch field
                       (update_ninety_day_high_low env sym) sym w)).
Proof.
  unfold cached_or_fetch, update_ninety_day_high_low, api_get_historical_data,
    set_ninety_day.
  unfold_monad. simpl.
  destruct (field (tracker w) !! sym); simpl; [by repeat split|].
  destruct (get_historical_data env (history_calls (out w)) sym 540)
    as [[|k ks]|e]; simpl; by repeat split.
Qed.

Lemma send_alert_effect env config alert_type sym p w :
  tracker (snd (send_alert env config alert_type sym p w)) = tracker w
  /\ alerts_raised (out (snd (send_alert env config alert_type sym p w)))
     = alerts_raised (out w) ++ [(alert_type, sym, p)].
Proof.
  unfold send_alert, note_alert, read_clock, _record_event.
  unfold_monad. simpl.
  match goal with
  | |- context [send_notification env config ?s ?w0] =>
      pose proof (send_notification_frame env config s w0) as (Ht & _ & _ & Hr & _);
      destruct (send_notification env config s w0) as [[[]|e] w1]
  end; simpl in *.
  - by split.
  - destruct (is_Exception e); simpl; by split.
Qed.

Lemma or_zero_some a p : Qcltb (or_zero (Some a)) p = Qcltb a p.
Proof.
  unfold or_zero. destruct (Qceqb a 0) eqn:E; [|done].
  apply Qceqb_eq in E. by subst.
Qed.

Lemma alerts_between_app w w' l :
  alerts_raised (out w') = alerts_raised (out w) ++ l ->
  alerts_between w w' = l.
Proof. intros H. unfold alerts_between. rewrite H. apply drop_app_length. Qed.

Lemma movement_alert_effect env config sym p pc w :
  let w' := snd (movement_alert env config sym p pc w) in
  tracker w' = tracker w
  /\ (alerts_raised (out w') = alerts_raised (out w)
      \/ alerts_raised (out w')
         = alerts_raised (out w) ++ [("Price Movement", sym, p)]).
Proof.
  unfold movement_alert.
  destruct pc as [change|]; [|by split; [|left]].
  destruct (Qcleb _ _); [|by split; [|left]].
  destruct (send_alert_effect env config "Price Movement" sym p w) as [? ?].
  split; [done | by right].
Qed.

(** [check_and_notify] is the window update, the threshold alert, the
    four look-ups and the alert of the selected extremum kind, in this
    order. *)
Lemma check_and_notify_unfold env config sym p w :
  check_and_notify env config sym p w
  = (price_change <- update_price_change env sym p 3600 ;;
     movement_alert env config sym p price_change ;;
     ath <- get_all_time_high env sym ;;
     atl <- get_all_time_low env sym ;;
     ninety_day_high <- get_ninety_day_high env sym ;;
     ninety_day_low <- get_ninety_day_low env sym ;;
     notify_extremum env config sym p
       (extremum_kind p ath atl ninety_day_high ninety_day_low))%py w.
Proof.
  unfold check_and_notify, movement_alert, notify_extremum, extremum_kind.
  unfold bind.
  destruct (update_price_change env sym p 3600 w) as [[pc|e] w1]; [|done].
  match goal with
  | |- match ?m w1 with _ => _ end = _ =>
      destruct (m w1) as [[[]|e] w2]; [|done]
  end.
  destruct (get_all_time_high env sym w2) as [[ath|e] w3]; [|done].
  destruct (get_all_time_low env sym w3) as [[atl|e] w4]; [|done].
  destruct (get_ninety_day_high env sym w4) as [[h|e] w5]; [|done].
  destruct (get_ninety_day_low env sym w5) as [[l|e] w6]; [|done].
  repeat match goal with
         | |- context [if ?c then _ else _] => destruct c
         end; reflexivity.
Qed.

(** What [check_and_notify] does once the all-time extrema of the symbol
    are cached: they are never written, the alerts raised are an optional
    "Price Movement" followed by the alert of at most one extremum kind,
    chosen by comparing with the cached values. *)
Lemma check_and_notify_cached env config sym p a b w :
  all_time_highs (tracker w) !! sym = Some a ->
  all_time_lows (tracker w) !! sym = Some b ->
  let r := check_and_notify env config sym p w in
  all_time_highs (tracker (snd r)) = all_time_highs (tracker w)
  /\ all_time_lows (tracker (snd r)) = all_time_lows (tracker w)
  /\ exists movement extremum,
       alerts_between w (snd r) = movement ++ extremum
       /\ (movement = [] \/ movement = [("Price Movement", sym, p)])
       /\ (extremum = []
           \/ exists kind, extremum = [(kind, sym, p)]
                /\ (Qcltb a p = true -> kind = "ATH")
                /\ (Qcltb a p = false -> kind <> "ATH"))
       /\ (Qcltb a p = true -> fst r = Ok tt -> extremum = [("ATH", sym, p)]).
Proof.
  intros Hh Hl r. subst r. rewrite check_and_notify_unfold. unfold bind.
  pose proof (update_price_change_quiet env sym p 3600 w) as (H1 & L1 & A1).
  destruct (update_price_change env sym p 3600 w) as [[pc|e] w1]; simpl in *.
  2:{ split; [done|]. split; [done|]. exists [], [].
      split; [apply alerts_between_app; by rewrite app_nil_r|].
      split; [by left|]. split; [by left | discriminate]. }
  pose proof (movement_alert_effect env config sym p pc w1) as (T2 & A2).
  destruct (movement_alert env config sym p pc w1) as [[[]|e] w2]; simpl in *.
  2:{ rewrite T2. split; [done|]. split; [done|].
      destruct A2 as [A2|A2].
      - exists [], []. split; [apply alerts_between_app; rewrite app_nil_r; congruence|].
        split; [by left|]. split; [by left | discriminate].
      - exists [("Price Movement", sym, p)], [].
        split; [apply alerts_between_app; rewrite app_nil_r; congruence|].
        split; [by right|]. split; [by left | discriminate]. }
  assert (Hh2 : all_time_highs (tracker w2) !! sym = Some a) by congruence.
  assert (Hl2 : all_time_lows (tracker w2) !! sym = Some b) by congruence.
  unfold get_all_time_high, get_all_time_low.
  rewrite (cached_or_fetch_hit all_time_highs _ sym a w2 Hh2).
  rewrite (cached_or_fetch_hit all_time_lows _ sym b w2 Hl2).
  assert (exists movement,
    alerts_raised (out w2) = alerts_raised (out w) ++ movement
    /\ (movement = [] \/ movement = [("Price Movement", sym, p)]))
    as (movement & Am & Hm).
  { destruct A2 as [A2|A2].
    - exists []. split; [rewrite app_nil_r; congruence | by left].
    - exists [("Price Movement", sym, p)]. split; [congruence | by right]. }
  unfold get_ninety_day_high, get_ninety_day_low.
  pose proof (ninety_day_fetch_quiet env ninety_day_highs sym w2) as (H3 & L3 & A3).
  destruct (cached_or_fetch ninety_day_highs _ sym w2) as [[h90|e] w3];
    simpl in *.
  2:{ rewrite H3, L3, T2. split; [done|]. split; [done|].
      exists movement, []. split; [apply alerts_between_app; rewrite app_nil_r; congruence|].
      split; [done|]. split; [by left | discriminate]. }
  pose proof (ninety_day_fetch_quiet env ninety_day_lows sym w3) as (H4 & L4 & A4).
  destruct (cached_or_fetch ninety_day_lows _ sym w3) as [[l90|e] w4];
    simpl in *.
  2:{ rewrite H4, L4, H3, L3, T2. split; [done|]. split; [done|].
      exists movement, []. split; [apply alerts_between_app; rewrite app_nil_r; congruence|].
      split; [done|]. split; [by left | discriminate]. }
  assert (Hbase : all_time_highs (tracker w4) = all_time_highs (tracker w)
                  /\ all_time_lows (tracker w4) = all_time_lows (tracker w)
                  /\ alerts_raised (out w4) = alerts_raised (out w) ++ movement).
  { repeat split; congruence. }
  clear - Hbase Hm. destruct Hbase as (Hb1 & Hb2 & Hb3).
  unfold extremum_kind. rewrite or_zero_some.
  generalize (below_or_inf p (Some b)) as below_atl.
  generalize (Qcltb (or_zero h90) p) as above_h90.
  generalize (below_or_inf p l90) as below_l90.
  intros below_l90 above_h90 below_atl.
  assert (Hsend : forall kind,
    let r := send_alert env config kind sym p w4 in
    all_time_highs (tracker (snd r)) = all_time_highs (tracker w)
    /\ all_time_lows (tracker (snd r)) = all_time_lows (tracker w)
    /\ alerts_between w (snd r) = movement ++ [(kind, sym, p)]).
  { intros kind. destruct (send_alert_effect env config kind sym p w4) as [Ht Ha].
    simpl. rewrite Ht. split; [done|]. split; [done|].
    apply alerts_between_app. rewrite Ha, Hb3. by rewrite <- app_assoc. }
  destruct (Qcltb a p) eqn:Hap; simpl.
  { destruct (Hsend "ATH") as (?&?&?). split; [done|]. split; [done|].
    exists movement, [("ATH", sym, p)]. split; [done|]. split; [done|].
    split; [|done]. right. exists "ATH". by repeat split. }
  assert (Hnone : all_time_highs (tracker w4) = all_time_highs (tracker w)
    /\ all_time_lows (tracker w4) = all_time_lows (tracker w)
    /\ exists movement0 extremum,
         alerts_between w w4 = movement0 ++ extremum
         /\ (movement0 = [] \/ movement0 = [("Price Movement", sym, p)])
         /\ (extremum = []
             \/ exists kind, extremum = [(kind, sym, p)]
                  /\ (false = true -> kind = "ATH")
                  /\ (false = false -> kind <> "ATH"))
         /\ (false = true -> Ok tt = Ok tt -> extremum = [("ATH", sym, p)])).
  { split; [done|]. split; [done|]. exists movement, [].
    split; [apply alerts_between_app; by rewrite app_nil_r|].
    split; [done|]. split; [by left | discriminate]. }
  assert (Hother : forall kind, kind <> "ATH" ->
    let r := send_alert env config kind sym p w4 in
    all_time_highs (tracker (snd r)) = all_time_highs (tracker w)
    /\ all_time_lows (tracker (snd r)) = all_time_lows (tracker w)
    /\ exists movement0 extremum,
         alerts_between w (snd r) = movement0 ++ extremum
         /\ (movement0 = [] \/ movement0 = [("Price Movement", sym, p)])
         /\ (extremum = []
             \/ exists kind0, extremum = [(kind0, sym, p)]
                  /\ (false = true -> kind0 = "ATH")
                  /\ (false = false -> kind0 <> "ATH"))
         /\ (false = true -> fst r = Ok tt -> extremum = [("ATH", sym, p)])).
  { intros kind Hk. destruct (Hsend kind) as (?&?&?).
    split; [done|]. split; [done|].
    exists movement, [(kind, sym, p)]. split; [done|]. split; [done|].
    split; [|discriminate]. right. exists kind. by repeat split. }
  destruct below_atl; simpl; [apply (Hother "ATL"); discriminate|].
  destruct above_h90; simpl; [apply (Hother "90-Day ATH"); discriminate|].
  destruct below_l90; simpl; [apply (Hother "90-Day ATL"); discriminate|].
  exact Hnone.
Qed.

(** C1, as worded, fails: a tick at 102 over a cached high of 101 raises
    the ATH alert and leaves the cached high at 101. *)
Lemma high_follows_price_fails : ~ high_follows_price.
Proof.
  intros H.
  specialize (H (calm_env [0; 0; 0]%Z) default_config "BTCUSDT" (of_Z 102)
                (of_Z 101) (of_Z 50) cached_world).
  assert (Hlt : (of_Z 101 < of_Z 102)%Qc) by (apply Qcltb_lt; by vm_compute).
  specialize (H eq_refl eq_refl Hlt eq_refl).
  vm_compute in H. discriminate.
Qed.

(** Two ticks at the same price above the cached high: the alert is
    raised at each of them, and the cached high is still the old one. *)
Example second_tick_raises_again :
  let env := calm_env [0; 0; 0; 10; 10; 10]%Z in
  let w1 := snd (check_and_notify env default_config "BTCUSDT" (of_Z 102)
                   cached_world) in
  let r2 := check_and_notify env default_config "BTCUSDT" (of_Z 102) w1 in
  fst r2 = Ok tt
  /\ alerts_raised (out (snd r2))
     = [("ATH", "BTCUSDT", of_Z 102); ("ATH", "BTCUSDT", of_Z 102)]
  /\ all_time_highs (tracker (snd r2)) !! "BTCUSDT" = Some (of_Z 101).
Proof. by vm_compute. Qed.

(** C1, amended.  With the all-time extrema of a symbol cached, a tick
    never changes them.  A tick at or below the cached high raises no ATH
    alert; a tick strictly above it that is processed to the end raises
    the ATH alert as its last alert - at every such tick, since the cached
    high stays where it was. *)
Theorem cached_high_is_never_updated
    (env : Env) (config : Config) (sym : string) (p a b : Qc) (w : World) :
  all_time_highs (tracker w) !! sym = Some a ->
  all_time_lows (tracker w) !! sym = Some b ->
  let r := check_and_notify env config sym p w in
  all_time_highs (tracker (snd r)) !! sym = Some a
  /\ all_time_lows (tracker (snd r)) !! sym = Some b
  /\ ((p <= a)%Qc ->
      Forall (fun x => fst (fst x) <> "ATH") (alerts_between w (snd r)))
  /\ ((a < p)%Qc -> fst r = Ok tt ->
      last (alerts_between w (snd r)) = Some ("ATH", sym, p)).
Proof.
  intros Hh Hl r.
  destruct (check_and_notify_cached env config sym p a b w Hh Hl)
    as (H1 & H2 & movement & extremum & Hb & Hm & He & Hath).
  fold r in H1, H2, Hb, Hath.
  rewrite H1, H2, Hb. split; [done|]. split; [done|]. split.
  - intros Hle. apply Qcltb_false_of_le in Hle.
    apply Forall_app. split.
    + destruct Hm as [->| ->]; [constructor|].
      constructor; [discriminate | constructor].
    + destruct He as [->|(kind & -> & _ & Hk)]; [constructor|].
      constructor; [by apply Hk | constructor].
  - intros Hlt Hok. apply Qcltb_lt in Hlt.
    rewrite (Hath Hlt Hok). apply last_snoc.
Qed.

Lemma cached_high_is_never_updated_witness :
  let env := calm_env [0; 0; 0]%Z in
  let r := check_and_notify env default_config "BTCUSDT" (of_Z 102) cached_world in
  (of_Z 101 < of_Z 102)%Qc
  /\ fst r = Ok tt
  /\ all_time_highs (tracker (snd r)) !! "BTCUSDT" = Some (of_Z 101)
  /\ last (alerts_between cached_world (snd r)) = Some ("ATH", "BTCUSDT", of_Z 102).
Proof.
  intros env r.
  assert (Hlt : (of_Z 101 < of_Z 102)%Qc) by (vm_compute; reflexivity).
  assert (Hok : fst r = Ok tt) by (vm_compute; reflexivity).
  destruct (cached_high_is_never_updated env default_config "BTCUSDT"
              (of_Z 102) (of_Z 101) (of_Z 50) cached_world eq_refl eq_refl)
    as (H1 & _ & _ & H4).
  split; [exact Hlt|]. split; [exact Hok|]. split; [exact H1|].
  exact (H4 Hlt Hok).
Defined.

(** ** Unknown extrema *)

Lemma all_time_fetch_empty env field sym w :
  field (tracker w) !! sym = None ->
  get_historical_data env (history_calls (out w)) sym 1000 = Ok [] ->
  cached_or_fetch field (update_all_time_high_low env sym) sym w
    = (Ok None, after_fetch w).
Proof.
  intros Hn Hh.
  unfold cached_or_fetch, update_all_time_high_low, api_get_historical_data.
  unfold_monad. rewrite Hn, Hh. simpl. by rewrite Hn.
Qed.

Lemma ninety_day_fetch_empty env field sym w :
  field (tracker w) !! sym = None ->
  get_historical_data env (history_calls (out w)) sym 540 = Ok [] ->
  cached_or_fetch field (update_ninety_day_high_low env sym) sym w
    = (Ok None, after_fetch w).
Proof.
  intros Hn Hh.
  unfold cached_or_fetch, update_ninety_day_high_low, api_get_historical_data.
  unfold_monad. rewrite Hn, Hh. simpl. by rewrite Hn.
Qed.

Lemma update_price_change_ninety_day env sym p tf w :
  ninety_day_highs (tracker (snd (update_price_change env sym p tf w)))
    = ninety_day_highs (tracker w)
  /\ ninety_day_lows (tracker (snd (update_price_change env sym p tf w)))
    = ninety_day_lows (tracker w).
Proof.
  unfold update_price_change, read_clock, set_price_changes.
  unfold_monad. simpl.
  repeat match goal with
         | |- context [if ?c then _ else _] => destruct c
         end; by split.
Qed.

(** C4, as worded, fails: on a fresh tracker with empty history, a tick
    at 102 raises the ATH alert. *)
Lemma unknown_is_not_exceedable_fails : ~ unknown_is_not_exceedable.
Proof.
  intros H.
  specialize (H (calm_env [0; 0; 0]%Z) default_config "BTCUSDT" (of_Z 102)
                new_world).
  assert (Hpos : (0 < of_Z 102)%Qc) by (apply Qcltb_lt; by vm_compute).
  assert (Hunk : extrema_unknown "BTCUSDT" new_world) by (by repeat split).
  specialize (H Hunk (fun _ _ => eq_refl) Hpos).
  vm_compute in H. discriminate.
Qed.

(** C4, amended.  With no extremum of the symbol known and a collaborator
    that answers with empty history, the extrema stay unknown and the
    coordinator compares the price with 0 for the highs: a tick with a
    positive price raises, after the optional "Price Movement" alert, the
    ATH alert and no other extremum alert (no ATL, no 90-day alert); the
    ATH alert is missing only when the tick was cut short by an
    exception. *)
Theorem unknown_extrema_raise_ath
    (env : Env) (config : Config) (sym : string) (p : Qc) (w : World) :
  extrema_unknown sym w ->
  (forall n limit, get_historical_data env n sym limit = Ok []) ->
  (0 < p)%Qc ->
  let r := check_and_notify env config sym p w in
  extrema_unknown sym (snd r)
  /\ exists movement extremum,
       alerts_between w (snd r) = movement ++ extremum
       /\ (movement = [] \/ movement = [("Price Movement", sym, p)])
       /\ (extremum = [] \/ extremum = [("ATH", sym, p)])
       /\ (fst r = Ok tt -> extremum = [("ATH", sym, p)]).
Proof.
  intros (U1 & U2 & U3 & U4) Hhist Hpos r. subst r.
  rewrite check_and_notify_unfold. unfold bind.
  pose proof (update_price_change_quiet env sym p 3600 w) as (H1 & L1 & A1).
  pose proof (update_price_change_ninety_day env sym p 3600 w) as (N1 & M1).
  destruct (update_price_change env sym p 3600 w) as [[pc|e] w1]; simpl in *.
  2:{ split; [unfold extrema_unknown; by rewrite H1, L1, N1, M1|].
      exists [], []. split; [apply alerts_between_app; by rewrite app_nil_r|].
      split; [by left|]. split; [by left | discriminate]. }
  pose proof (movement_alert_effect env config sym p pc w1) as (T2 & A2).
  assert (exists movement,
    alerts_raised (out (snd (movement_alert env config sym p pc w1)))
      = alerts_raised (out w) ++ movement
    /\ (movement = [] \/ movement = [("Price Movement", sym, p)]))
    as (movement & Am & Hm).
  { destruct A2 as [A2|A2].
    - exists []. split; [rewrite app_nil_r; congruence | by left].
    - exists [("Price Movement", sym, p)]. split; [congruence | by right]. }
  clear A2.
  destruct (movement_alert env config sym p pc w1) as [[[]|e] w2]; simpl in *.
  2:{ split; [unfold extrema_unknown; by rewrite T2, H1, L1, N1, M1|].
      exists movement, [].
      split; [apply alerts_between_app; by rewrite app_nil_r|].
      split; [done|]. split; [by left | discriminate]. }
  assert (U : extrema_unknown sym w2)
    by (unfold extrema_unknown; by rewrite T2, H1, L1, N1, M1).
  destruct U as (V1 & V2 & V3 & V4).
  unfold get_all_time_high, get_all_time_low, get_ninety_day_high,
    get_ninety_day_low.
  rewrite (all_time_fetch_empty env all_time_highs sym w2 V1 (Hhist _ _)).
  rewrite (all_time_fetch_empty env all_time_lows sym (after_fetch w2) V2
             (Hhist _ _)).
  rewrite (ninety_day_fetch_empty env ninety_day_highs sym
             (after_fetch (after_fetch w2)) V3 (Hhist _ _)).
  rewrite (ninety_day_fetch_empty env ninety_day_lows sym
             (after_fetch (after_fetch (after_fetch w2))) V4 (Hhist _ _)).
  set (w6 := after_fetch (after_fetch (after_fetch (after_fetch w2)))).
  unfold extremum_kind, or_zero.
  apply Qcltb_lt in Hpos. rewrite Hpos. simpl.
  destruct (send_alert_effect env config "ATH" sym p w6) as [Ht Ha].
  split; [unfold extrema_unknown; by rewrite Ht|].
  exists movement, [("ATH", sym, p)].
  split.
  { apply alerts_between_app. rewrite Ha. simpl. rewrite Am.
    by rewrite <- app_assoc. }
  split; [done|]. split; [by right | done].
Qed.

Lemma unknown_extrema_raise_ath_witness :
  let env := calm_env [0; 0; 0]%Z in
  let r := check_and_notify env default_config "BTCUSDT" (of_Z 102) new_world in
  extrema_unknown "BTCUSDT" new_world
  /\ (0 < of_Z 102)%Qc
  /\ fst r = Ok tt
  /\ extrema_unknown "BTCUSDT" (snd r)
  /\ alerts_between new_world (snd r) = [("ATH", "BTCUSDT", of_Z 102)].
Proof.
  intros env r.
  assert (Hunk : extrema_unknown "BTCUSDT" new_world)
    by (repeat split; reflexivity).
  assert (Hpos : (0 < of_Z 102)%Qc) by (vm_compute; reflexivity).
  destruct (unknown_extrema_raise_ath env default_config "BTCUSDT" (of_Z 102)
              new_world Hunk (fun _ _ => eq_refl) Hpos)
    as (H1 & _).
  split; [exact Hunk|]. split; [exact Hpos|].
  split; [vm_compute; reflexivity|]. split; [exact H1|].
  vm_compute; reflexivity.
Defined.

(** * Further properties *)

(** ** Extrema taken from history *)

Lemma py_max_fold x xs :
  (x <= py_max x xs)%Qc
  /\ Forall (fun y => (y <= py_max x xs)%Qc) xs
  /\ In (py_max x xs) (x :: xs).
Proof.
  unfold py_max. revert x. induction xs as [|y ys IH]; intros x; simpl.
  - split; [apply Qcle_refl|]. split; [constructor | by left].
  - destruct (Qcltb x y) eqn:E.
    + apply Qcltb_lt in E. destruct (IH y) as (H1 & H2 & H3).
      split; [eapply Qcle_trans; [apply Qclt_le_weak, E | exact H1]|].
      split; [by constructor|].
      destruct H3 as [H3|H3]; [right; left; exact H3 | right; right; exact H3].
    + assert (Hyx : (y <= x)%Qc).
      { apply Qcnot_lt_le. intros H. apply Qcltb_lt in H. congruence. }
      destruct (IH x) as (H1 & H2 & H3).
      split; [exact H1|].
      split; [constructor; [eapply Qcle_trans; eauto | exact H2]|].
      destruct H3 as [H3|H3]; [left; exact H3 | right; right; exact H3].
Qed.

Lemma py_min_fold x xs :
  (py_min x xs <= x)%Qc
  /\ Forall (fun y => (py_min x xs <= y)%Qc) xs
  /\ In (py_min x xs) (x :: xs).
Proof.
  unfold py_min. revert x. induction xs as [|y ys IH]; intros x; simpl.
  - split; [apply Qcle_refl|]. split; [constructor | by left].
  - destruct (Qcltb y x) eqn:E.
    + apply Qcltb_lt in E. destruct (IH y) as (H1 & H2 & H3).
      split; [eapply Qcle_trans; [exact H1 | apply Qclt_le_weak, E]|].
      split; [by constructor|].
      destruct H3 as [H3|H3]; [right; left; exact H3 | right; right; exact H3].
    + assert (Hxy : (x <= y)%Qc).
      { apply Qcnot_lt_le. intros H. apply Qcltb_lt in H. congruence. }
      destruct (IH x) as (H1 & H2 & H3).
      split; [exact H1|].
      split; [constructor; [eapply Qcle_trans; eauto | exact H2]|].
      destruct H3 as [H3|H3]; [left; exact H3 | right; right; exact H3].
Qed.

(** X1. After [update_all_time_high_low] has seen non-empty history, the
    cached high is the high of one of the candles and no candle has a
    higher one; the cached low is the low of one of the candles and no
    candle has a lower one; when every candle has its low at or below its
    high, the cached low is at or below the cached high. *)
Theorem all_time_extrema_of_history
    (env : Env) (w : World) (sym : string) (klines : list kline) :
  klines <> [] ->
  get_historical_data env (history_calls (out w)) sym 1000 = Ok klines ->
  let w' := snd (update_all_time_high_low env sym w) in
  exists hi lo,
    all_time_highs (tracker w') !! sym = Some hi
    /\ all_time_lows (tracker w') !! sym = Some lo
    /\ In hi (map k_high klines)
    /\ In lo (map k_low klines)
    /\ Forall (fun k => (k_high k <= hi)%Qc /\ (lo <= k_low k)%Qc) klines
    /\ (Forall (fun k => (k_low k <= k_high k)%Qc) klines -> (lo <= hi)%Qc).
Proof.
  intros Hne Hhist w'. destruct klines as [|k ks]; [done|].
  subst w'. unfold update_all_time_high_low, api_get_historical_data, set_all_time.
  unfold_monad. rewrite Hhist. simpl.
  destruct (py_max_fold (k_high k) (map k_high ks)) as (M1 & M2 & M3).
  destruct (py_min_fold (k_low k) (map k_low ks)) as (N1 & N2 & N3).
  exists (py_max (k_high k) (map k_high ks)), (py_min (k_low k) (map k_low ks)).
  rewrite !lookup_insert_eq.
  split; [done|]. split; [done|]. split; [exact M3|]. split; [exact N3|].
  split.
  - constructor; [by split|].
    rewrite List.Forall_forall in M2, N2. apply List.Forall_forall.
    intros k' Hk'. split.
    + apply M2. by apply in_map.
    + apply N2. by apply in_map.
  - intros Hwf. inversion Hwf as [|? ? Hk _]; subst.
    eapply Qcle_trans; [exact N1|]. eapply Qcle_trans; [exact Hk | exact M1].
Qed.

Lemma all_time_extrema_of_history_witness :
  let w' := snd (update_all_time_high_low history_env "BTCUSDT" new_world) in
  all_time_highs (tracker w') !! "BTCUSDT" = Some (of_Z 101)
  /\ all_time_lows (tracker w') !! "BTCUSDT" = Some (of_Z 40).
Proof.
  intros w'.
  destruct (all_time_extrema_of_history history_env new_world "BTCUSDT"
              [Kline (of_Z 101) (of_Z 50); Kline (of_Z 99) (of_Z 40)])
    as (hi & lo & _).
  - discriminate.
  - reflexivity.
  - split; reflexivity.
Defined.

(** ** What a tick does to the tracker *)

Lemma tracker_step_same_at sym t t' other :
  tracker_step sym t t' -> other <> sym -> same_at other t t'.
Proof.
  intros Hs Hne. induction Hs; unfold same_at in *; simpl.
  - done.
  - repeat split; try done. by rewrite lookup_insert_ne.
  - repeat split; try done; by rewrite lookup_insert_ne.
  - repeat split; try done; by rewrite lookup_insert_ne.
  - destruct IHHs1 as (?&?&?&?&?), IHHs2 as (?&?&?&?&?).
    repeat split; congruence.
Qed.

Lemma tracker_step_paired sym t t' :
  tracker_step sym t t' -> extrema_paired t -> extrema_paired t'.
Proof.
  intros Hs. induction Hs; intros Hp; try done.
  - intros s. destruct (Hp s) as [H1 H2]. simpl. split; [|done].
    destruct (decide (s = sym)) as [->|Hne].
    + rewrite !lookup_insert_eq. split; intros _; by eexists.
    + by rewrite !lookup_insert_ne.
  - intros s. destruct (Hp s) as [H1 H2]. simpl. split; [done|].
    destruct (decide (s = sym)) as [->|Hne].
    + rewrite !lookup_insert_eq. split; intros _; by eexists.
    + by rewrite !lookup_insert_ne.
  - auto.
Qed.

Lemma lookup_frame_refl sym w : lookup_frame sym w w.
Proof. repeat split; try done; [constructor | lia]. Qed.

Lemma all_time_lookup_frame env field sym w :
  lookup_frame sym w
    (snd (cached_or_fetch field (update_all_time_high_low env sym) sym w)).
Proof.
  unfold cached_or_fetch, update_all_time_high_low, api_get_historical_data,
    set_all_time.
  unfold_monad. simpl.
  destruct (field (tracker w) !! sym); simpl; [apply lookup_frame_refl|].
  destruct (get_historical_data env (history_calls (out w)) sym 1000)
    as [[|k ks]|e]; simpl;
    (split; [constructor|]); repeat split; try done; simpl; lia.
Qed.

Lemma ninety_day_lookup_frame env field sym w :
  lookup_frame sym w
    (snd (cached_or_fetch field (update_ninety_day_high_low env sym) sym w)).
Proof.
  unfold cached_or_fetch, update_ninety_day_high_low, api_get_historical_data,
    set_ninety_day.
  unfold_monad. simpl.
  destruct (field (tracker w) !! sym); simpl; [apply lookup_frame_refl|].
  destruct (get_historical_data env (history_calls (out w)) sym 540)
    as [[|k ks]|e]; simpl;
    (split; [constructor|]); repeat split; try done; simpl; lia.
Qed.

Lemma update_price_change_frame env sym p tf w :
  let w' := snd (update_price_change env sym p tf w) in
  tracker_step sym (tracker w) (tracker w')
  /\ alerts w' = alerts w /\ email w' = email w /\ ws w' = ws w
  /\ alerts_raised (out w') = alerts_raised (out w)
  /\ history_calls (out w') = history_calls (out w)
  /\ primary_calls (out w') = primary_calls (out w)
  /\ secondary_calls (out w') = secondary_calls (out w).
Proof.
  unfold update_price_change, read_clock, set_price_changes.
  unfold_monad. simpl.
  repeat match goal with
         | |- context [if ?c then _ else _] => destruct c
         end; simpl; repeat split; try done; constructor.
Qed.

(** An alert leaves the tracker and the count of historical fetches
    alone. *)
Lemma send_alert_frame env config alert_type sym p w :
  let w' := snd (send_alert env config alert_type sym p w) in
  tracker w' = tracker w /\ ws w' = ws w
  /\ history_calls (out w') = history_calls (out w).
Proof.
  unfold send_alert, note_alert, read_clock, _record_event.
  unfold_monad. simpl.
  match goal with
  | |- context [send_notification env config ?s ?w0] =>
      pose proof (send_notification_frame env config s w0) as (Ht & _ & Hw & _ & Hh);
      destruct (send_notification env config s w0) as [[[]|e] w1]
  end; simpl in *.
  - by repeat split.
  - destruct (is_Exception e); simpl; by repeat split.
Qed.

Lemma movement_alert_frame env config sym p pc w :
  let w' := snd (movement_alert env config sym p pc w) in
  tracker w' = tracker w /\ ws w' = ws w
  /\ history_calls (out w') = history_calls (out w).
Proof.
  unfold movement_alert.
  destruct pc as [change|]; [|by repeat split].
  destruct (Qcleb _ _); [|by repeat split].
  apply send_alert_frame.
Qed.

Lemma notify_extremum_frame env config sym p kind w :
  let w' := snd (notify_extremum env config sym p kind w) in
  tracker w' = tracker w /\ ws w' = ws w
  /\ history_calls (out w') = history_calls (out w).
Proof.
  destruct kind as [k|]; [apply send_alert_frame | by repeat split].
Qed.

(** A tick for one symbol moves the tracker by steps for that symbol
    only, and makes at most four historical fetches. *)
Lemma check_and_notify_tracker_step env config sym p w :
  let w' := snd (check_and_notify env config sym p w) in
  tracker_step sym (tracker w) (tracker w')
  /\ ws w' = ws w
  /\ (history_calls (out w) <= history_calls (out w')
      <= history_calls (out w) + 4)%nat.
Proof.
  simpl. rewrite check_and_notify_unfold. unfold bind.
  pose proof (update_price_change_frame env sym p 3600 w)
    as (S1 & _ & _ & W1 & _ & C1 & _).
  destruct (update_price_change env sym p 3600 w) as [[pc|e] w1]; simpl in *;
    [|split; [done|]; split; [done|lia]].
  pose proof (movement_alert_frame env config sym p pc w1) as (T2 & W2 & C2).
  destruct (movement_alert env config sym p pc w1) as [[[]|e] w2]; simpl in *;
    [|rewrite T2; split; [done|]; split; [congruence|lia]].
  unfold get_all_time_high, get_all_time_low, get_ninety_day_high,
    get_ninety_day_low.
  pose proof (all_time_lookup_frame env all_time_highs sym w2)
    as (S3 & _ & _ & W3 & _ & _ & _ & C3).
  destruct (cached_or_fetch all_time_highs _ sym w2) as [[ath|e] w3];
    simpl in *.
  2:{ split; [rewrite T2 in S3; eapply step_trans; eauto|].
      split; [congruence|lia]. }
  pose proof (all_time_lookup_frame env all_time_lows sym w3)
    as (S4 & _ & _ & W4 & _ & _ & _ & C4).
  destruct (cached_or_fetch all_time_lows _ sym w3) as [[atl|e] w4];
    simpl in *.
  2:{ split; [rewrite T2 in S3; eapply step_trans; [exact S1|];
              eapply step_trans; eauto|].
      split; [congruence|lia]. }
  pose proof (ninety_day_lookup_frame env ninety_day_highs sym w4)
    as (S5 & _ & _ & W5 & _ & _ & _ & C5).
  destruct (cached_or_fetch ninety_day_highs _ sym w4) as [[h90|e] w5];
    simpl in *.
  2:{ split; [rewrite T2 in S3; eapply step_trans; [exact S1|];
              eapply step_trans; [exact S3|]; eapply step_trans; eauto|].
      split; [congruence|lia]. }
  pose proof (ninety_day_lookup_frame env ninety_day_lows sym w5)
    as (S6 & _ & _ & W6 & _ & _ & _ & C6).
  destruct (cached_or_fetch ninety_day_lows _ sym w5) as [[l90|e] w6];
    simpl in *.
  2:{ split; [rewrite T2 in S3; eapply step_trans; [exact S1|];
              eapply step_trans; [exact S3|]; eapply step_trans; [exact S4|];
              eapply step_trans; eauto|].
      split; [congruence|lia]. }
  pose proof (notify_extremum_frame env config sym p
                (extremum_kind p ath atl h90 l90) w6) as (T7 & W7 & C7).
  simpl in *. rewrite T7. split.
  - rewrite T2 in S3. eapply step_trans; [exact S1|].
    eapply step_trans; [exact S3|]. eapply step_trans; [exact S4|].
    eapply step_trans; eauto.
  - split; [congruence|lia].
Qed.

(** X2. A tick for one symbol leaves the entries of every other symbol
    as they are, in the four extremum dictionaries and in the rolling
    windows. *)
Theorem check_and_notify_other_symbols
    (env : Env) (config : Config) (sym other : string) (p : Qc) (w : World) :
  other <> sym ->
  same_at other (tracker w) (tracker (snd (check_and_notify env config sym p w))).
Proof.
  intros Hne.
  destruct (check_and_notify_tracker_step env config sym p w) as (Hs & _).
  by eapply tracker_step_same_at.
Qed.

(** X3. The all-time high and low of a symbol are cached together, and
    so are its 90-day high and low: a tick keeps this, whatever its
    outcome. *)
Theorem check_and_notify_keeps_pairs
    (env : Env) (config : Config) (sym : string) (p : Qc) (w : World) :
  extrema_paired (tracker w) ->
  extrema_paired (tracker (snd (check_and_notify env config sym p w))).
Proof.
  intros Hp.
  destruct (check_and_notify_tracker_step env config sym p w) as (Hs & _).
  by eapply tracker_step_paired.
Qed.

Lemma check_and_notify_other_symbols_witness :
  same_at "ETHUSDT" (tracker cached_world)
    (tracker (snd (check_and_notify (calm_env [0; 0; 0]%Z) default_config
                     "BTCUSDT" (of_Z 102) cached_world))).
Proof.
  apply check_and_notify_other_symbols. discriminate.
Defined.

Lemma new_tracker_paired : extrema_paired new_tracker.
Proof.
  intros s. simpl. rewrite !lookup_empty. split; split; intros [? H]; discriminate.
Qed.

Lemma check_and_notify_keeps_pairs_witness :
  extrema_paired
    (tracker (snd (check_and_notify history_env default_config "BTCUSDT"
                     (of_Z 102) new_world))).
Proof.
  apply check_and_notify_keeps_pairs. exact new_tracker_paired.
Defined.

(** X4. For a symbol without cached 90-day high, one
    [get_ninety_day_high] that finds non-empty history asks for 540
    candles once and fills both the 90-day high and the 90-day low; a
    following [get_ninety_day_low] answers from the cache and changes
    nothing; the all-time extrema and the rolling windows are untouched. *)
Theorem get_ninety_day_high_populates_both
    (env : Env) (w : World) (sym : string) (k : kline) (ks : list kline) :
  ninety_day_highs (tracker w) !! sym = None ->
  get_historical_data env (history_calls (out w)) sym 540 = Ok (k :: ks) ->
  let hi := py_max (k_high k) (map k_high ks) in
  let lo := py_min (k_low k) (map k_low ks) in
  let w1 := snd (get_ninety_day_high env sym w) in
  fst (get_ninety_day_high env sym w) = Ok (Some hi)
  /\ ninety_day_lows (tracker w1) !! sym = Some lo
  /\ history_calls (out w1) = S (history_calls (out w))
  /\ get_ninety_day_low env sym w1 = (Ok (Some lo), w1)
  /\ all_time_highs (tracker w1) = all_time_highs (tracker w)
  /\ all_time_lows (tracker w1) = all_time_lows (tracker w)
  /\ price_changes (tracker w1) = price_changes (tracker w).
Proof.
  intros Hnone Hhist hi lo w1.
  assert (Hrun : get_ninety_day_high env sym w
    = (Ok (Some hi),
       MkWorld (MkPriceTracker (all_time_highs (tracker w))
                 (all_time_lows (tracker w))
                 (<[sym := hi]> (ninety_day_highs (tracker w)))
                 (<[sym := lo]> (ninety_day_lows (tracker w)))
                 (price_changes (tracker w)))
               (alerts w) (email w) (ws w)
               (MkOutside (clock_reads (out w)) (primary_calls (out w))
                 (secondary_calls (out w)) (S (history_calls (out w)))
                 (exchange_info_calls (out w)) (connects (out w))
                 (exit_queries (out w)) (sleeps (out w)) (log (out w))
                 (alerts_raised (out w))))).
  { unfold get_ninety_day_high, cached_or_fetch, update_ninety_day_high_low,
      api_get_historical_data, set_ninety_day.
    unfold_monad. rewrite Hnone, Hhist. simpl.
    by rewrite lookup_insert_eq. }
  subst w1. rewrite Hrun. simpl.
  repeat split; try done.
  - by rewrite lookup_insert_eq.
  - apply cached_or_fetch_hit. simpl. by rewrite lookup_insert_eq.
Qed.

Lemma get_ninety_day_high_populates_both_witness :
  let w1 := snd (get_ninety_day_high history_env "BTCUSDT" new_world) in
  fst (get_ninety_day_high history_env "BTCUSDT" new_world) = Ok (Some (of_Z 101))
  /\ ninety_day_lows (tracker w1) !! "BTCUSDT" = Some (of_Z 40)
  /\ history_calls (out w1) = 1%nat.
Proof.
  intros w1.
  destruct (get_ninety_day_high_populates_both history_env new_world "BTCUSDT"
              (Kline (of_Z 101) (of_Z 50)) [Kline (of_Z 99) (of_Z 40)])
    as (H1 & H2 & H3 & _).
  - reflexivity.
  - reflexivity.
  - fold w1 in H2, H3. repeat split; assumption.
Defined.

(** X5. Once the four extrema of a symbol are cached, a tick makes no
    historical fetch and leaves the four extremum dictionaries as they
    are, whatever its outcome. *)
Theorem cached_extrema_need_no_fetch
    (env : Env) (config : Config) (sym : string) (p a b c d : Qc) (w : World) :
  all_time_highs (tracker w) !! sym = Some a ->
  all_time_lows (tracker w) !! sym = Some b ->
  ninety_day_highs (tracker w) !! sym = Some c ->
  ninety_day_lows (tracker w) !! sym = Some d ->
  let w' := snd (check_and_notify env config sym p w) in
  history_calls (out w') = history_calls (out w)
  /\ all_time_highs (tracker w') = all_time_highs (tracker w)
  /\ all_time_lows (tracker w') = all_time_lows (tracker w)
  /\ ninety_day_highs (tracker w') = ninety_day_highs (tracker w)
  /\ ninety_day_lows (tracker w') = ninety_day_lows (tracker w).
Proof.
  intros Ha Hb Hc Hd. simpl. rewrite check_and_notify_unfold. unfold bind.
  pose proof (update_price_change_quiet env sym p 3600 w) as (H1 & L1 & _).
  pose proof (update_price_change_ninety_day env sym p 3600 w) as (N1 & M1).
  pose proof (update_price_change_frame env sym p 3600 w)
    as (_ & _ & _ & _ & _ & C1 & _).
  destruct (update_price_change env sym p 3600 w) as [[pc|e] w1]; simpl in *;
    [|by repeat split].
  pose proof (movement_alert_frame env config sym p pc w1) as (T2 & _ & C2).
  destruct (movement_alert env config sym p pc w1) as [[[]|e] w2]; simpl in *;
    [|rewrite T2; repeat split; congruence].
  unfold get_all_time_high, get_all_time_low, get_ninety_day_high,
    get_ninety_day_low.
  rewrite (cached_or_fetch_hit all_time_highs _ sym a w2) by congruence.
  rewrite (cached_or_fetch_hit all_time_lows _ sym b w2) by congruence.
  rewrite (cached_or_fetch_hit ninety_day_highs _ sym c w2) by congruence.
  rewrite (cached_or_fetch_hit ninety_day_lows _ sym d w2) by congruence.
  pose proof (notify_extremum_frame env config sym p
                (extremum_kind p (Some a) (Some b) (Some c) (Some d)) w2)
    as (T7 & _ & C7).
  simpl in *. rewrite T7, T2. repeat split; congruence.
Qed.

Lemma cached_extrema_need_no_fetch_witness :
  history_calls (out (snd (check_and_notify history_env default_config
                             "BTCUSDT" (of_Z 102) cached_world))) = 0%nat.
Proof.
  exact (proj1 (cached_extrema_need_no_fetch history_env default_config
                  "BTCUSDT" (of_Z 102) (of_Z 101) (of_Z 50) (of_Z 101) (of_Z 50)
                  cached_world eq_refl eq_refl eq_refl eq_refl)).
Defined.

(** X6. Empty history is not remembered: with no extremum of the symbol
    known and a collaborator that answers with empty history, every tick
    that runs to its end has made four historical fetches, and the
    extrema are as unknown as before. *)
Theorem unknown_extrema_refetch_each_tick
    (env : Env) (config : Config) (sym : string) (p : Qc) (w : World) :
  extrema_unknown sym w ->
  (forall n limit, get_historical_data env n sym limit = Ok []) ->
  let r := check_and_notify env config sym p w in
  (fst r = Ok tt ->
   history_calls (out (snd r)) = (history_calls (out w) + 4)%nat)
  /\ extrema_unknown sym (snd r).
Proof.
  intros (U1 & U2 & U3 & U4) Hhist r. subst r.
  rewrite check_and_notify_unfold. unfold bind.
  pose proof (update_price_change_quiet env sym p 3600 w) as (H1 & L1 & _).
  pose proof (update_price_change_ninety_day env sym p 3600 w) as (N1 & M1).
  pose proof (update_price_change_frame env sym p 3600 w)
    as (_ & _ & _ & _ & _ & C1 & _).
  destruct (update_price_change env sym p 3600 w) as [[pc|e] w1]; simpl in *.
  2:{ split; [discriminate|]. unfold extrema_unknown. by rewrite H1, L1, N1, M1. }
  pose proof (movement_alert_frame env config sym p pc w1) as (T2 & _ & C2).
  destruct (movement_alert env config sym p pc w1) as [[[]|e] w2]; simpl in *.
  2:{ split; [discriminate|]. unfold extrema_unknown.
      by rewrite T2, H1, L1, N1, M1. }
  assert (U : extrema_unknown sym w2)
    by (unfold extrema_unknown; by rewrite T2, H1, L1, N1, M1).
  destruct U as (V1 & V2 & V3 & V4).
  unfold get_all_time_high, get_all_time_low, get_ninety_day_high,
    get_ninety_day_low.
  rewrite (all_time_fetch_empty env all_time_highs sym w2 V1 (Hhist _ _)).
  rewrite (all_time_fetch_empty env all_time_lows sym (after_fetch w2) V2
             (Hhist _ _)).
  rewrite (ninety_day_fetch_empty env ninety_day_highs sym
             (after_fetch (after_fetch w2)) V3 (Hhist _ _)).
  rewrite (ninety_day_fetch_empty env ninety_day_lows sym
             (after_fetch (after_fetch (after_fetch w2))) V4 (Hhist _ _)).
  set (w6 := after_fetch (after_fetch (after_fetch (after_fetch w2)))).
  pose proof (notify_extremum_frame env config sym p
                (extremum_kind p None None None None) w6) as (T7 & _ & C7).
  simpl in T7, C7. split.
  - intros _. rewrite C7. subst w6. simpl. lia.
  - unfold extrema_unknown. by rewrite T7.
Qed.

Lemma unknown_extrema_refetch_each_tick_witness :
  let r := check_and_notify (calm_env [0; 0; 0]%Z) default_config "BTCUSDT"
             (of_Z 102) new_world in
  fst r = Ok tt /\ history_calls (out (snd r)) = 4%nat.
Proof.
  intros r.
  assert (Hok : fst r = Ok tt) by (vm_compute; reflexivity).
  split; [exact Hok|].
  apply (proj1 (unknown_extrema_refetch_each_tick (calm_env [0; 0; 0]%Z)
                  default_config "BTCUSDT" (of_Z 102) new_world
                  ltac:(repeat split; reflexivity) (fun _ _ => eq_refl)) Hok).
Defined.

(** ** The alerts of one tick *)

Lemma extremum_kind_known p ath atl h l kind :
  extremum_kind p ath atl h l = Some kind -> In kind extremum_kinds.
Proof.
  unfold extremum_kind, extremum_kinds.
  repeat match goal with
         | |- context [if ?c then _ else _] => destruct c
         end; intros [= <-]; simpl; auto.
Qed.

Lemma movement_alert_exact env config sym p pc w :
  alerts_raised (out (snd (movement_alert env config sym p pc w)))
  = alerts_raised (out w) ++ movement_alerts config sym p (Ok pc).
Proof.
  unfold movement_alert, movement_alerts.
  destruct pc as [change|]; [|by rewrite app_nil_r].
  destruct (Qcleb _ _); [|by rewrite app_nil_r].
  apply send_alert_effect.
Qed.

(** The alerts of a tick, for any state: those of the threshold test,
    then at most one alert, of an extremum kind. *)
Lemma check_and_notify_alerts env config sym p w :
  let r := check_and_notify env config sym p w in
  exists extremum,
    alerts_between w (snd r)
    = movement_alerts config sym p (fst (update_price_change env sym p 3600 w))
      ++ extremum
    /\ (extremum = []
        \/ exists kind, extremum = [(kind, sym, p)] /\ In kind extremum_kinds).
Proof.
  simpl. rewrite check_and_notify_unfold. unfold bind.
  pose proof (update_price_change_frame env sym p 3600 w)
    as (_ & _ & _ & _ & A1 & _).
  destruct (update_price_change env sym p 3600 w) as [[pc|e] w1]; simpl in *.
  2:{ exists []. split; [|by left].
      apply alerts_between_app. by rewrite app_nil_r. }
  pose proof (movement_alert_exact env config sym p pc w1) as A2.
  destruct (movement_alert env config sym p pc w1) as [[[]|e] w2]; simpl in *.
  2:{ exists []. split; [|by left].
      apply alerts_between_app. rewrite app_nil_r. congruence. }
  unfold get_all_time_high, get_all_time_low, get_ninety_day_high,
    get_ninety_day_low.
  pose proof (all_time_lookup_frame env all_time_highs sym w2)
    as (_ & _ & _ & _ & A3 & _).
  destruct (cached_or_fetch all_time_highs _ sym w2) as [[ath|e] w3];
    simpl in *.
  2:{ exists []. split; [|by left].
      apply alerts_between_app. rewrite app_nil_r. congruence. }
  pose proof (all_time_lookup_frame env all_time_lows sym w3)
    as (_ & _ & _ & _ & A4 & _).
  destruct (cached_or_fetch all_time_lows _ sym w3) as [[atl|e] w4];
    simpl in *.
  2:{ exists []. split; [|by left].
      apply alerts_between_app. rewrite app_nil_r. congruence. }
  pose proof (ninety_day_lookup_frame env ninety_day_highs sym w4)
    as (_ & _ & _ & _ & A5 & _).
  destruct (cached_or_fetch ninety_day_highs _ sym w4) as [[h90|e] w5];
    simpl in *.
  2:{ exists []. split; [|by left].
      apply alerts_between_app. rewrite app_nil_r. congruence. }
  pose proof (ninety_day_lookup_frame env ninety_day_lows sym w5)
    as (_ & _ & _ & _ & A6 & _).
  destruct (cached_or_fetch ninety_day_lows _ sym w5) as [[l90|e] w6];
    simpl in *.
  2:{ exists []. split; [|by left].
      apply alerts_between_app. rewrite app_nil_r. congruence. }
  assert (Hbase : alerts_raised (out w6)
                  = alerts_raised (out w) ++ movement_alerts config sym p (Ok pc))
    by (simpl; congruence).
  destruct (extremum_kind p ath atl h90 l90) as [kind|] eqn:Ek; simpl.
  - destruct (send_alert_effect env config kind sym p w6) as [_ Ha].
    exists [(kind, sym, p)]. split.
    + apply alerts_between_app. rewrite Ha, Hbase. by rewrite <- app_assoc.
    + right. exists kind. split; [done|]. by eapply extremum_kind_known.
  - exists []. split; [|by left].
    apply alerts_between_app. by rewrite app_nil_r.
Qed.

(** X7. One tick raises at most two alerts, for any state and outcome:
    at most one "Price Movement" alert, and after it at most one alert of
    an extremum kind (ATH, ATL, 90-Day ATH or 90-Day ATL), all for the
    symbol and the price of the tick. *)
Theorem at_most_one_extremum_alert
    (env : Env) (config : Config) (sym : string) (p : Qc) (w : World) :
  let r := check_and_notify env config sym p w in
  exists movement extremum,
    alerts_between w (snd r) = movement ++ extremum
    /\ (movement = [] \/ movement = [("Price Movement", sym, p)])
    /\ (extremum = []
        \/ exists kind, extremum = [(kind, sym, p)] /\ In kind extremum_kinds).
Proof.
  destruct (check_and_notify_alerts env config sym p w) as (extremum & Hb & He).
  exists (movement_alerts config sym p
            (fst (update_price_change env sym p 3600 w))), extremum.
  split; [exact Hb|]. split; [|exact He].
  unfold movement_alerts.
  destruct (fst (update_price_change env sym p 3600 w)) as [[change|]|];
    try (by left).
  destruct (Qcleb _ _); [by right | by left].
Qed.




(** ** Bounds of one notification *)


Lemma Qcmin_le_l x y : (Qcmin x y <= x)%Qc.
Proof.
  unfold Qcmin. destruct (Qcltb y x) eqn:E; [|apply Qcle_refl].
  apply Qclt_le_weak. by apply Qcltb_lt.
Qed.

(** The retry loop, whatever the transports do: at most one primary call
    per remaining try, at most one secondary call, the ledger written at
    most at the subject, and an exception only from a secondary call that
    failed. *)
Lemma send_attempts_bounds env config subject t :
  forall (n a : nat) (w : World),
  ((0 < n)%nat -> Z.of_nat (a + n) = MAX_RETRIES config) ->
  let r := send_attempts env config subject t (map Z.of_nat (seq a n)) w in
  (primary_calls (out w) <= primary_calls (out (snd r))
     <= primary_calls (out w) + n)%nat
  /\ (secondary_calls (out w) <= secondary_calls (out (snd r))
        <= S (secondary_calls (out w)))%nat
  /\ (last_notification_time (email (snd r)) = last_notification_time (email w)
      \/ last_notification_time (email (snd r))
         = <[subject := t]> (last_notification_time (email w)))
  /\ (forall e, fst r = Raise e ->
        e = SMTPException
        /\ secondary_calls (out (snd r)) = S (secondary_calls (out w))
        /\ secondary_delivers env (secondary_calls (out w)) = false
        /\ last_notification_time (email (snd r))
           = last_notification_time (email w)).
Proof.
  induction n as [|n IH]; intros a w Hmax; simpl.
  - split; [lia|]. split; [lia|]. split; [by left | discriminate].
  - unfold _send_email, logger, set_last_notification_time, _handle_retry,
      asyncio_sleep, _send_via_secondary_server, secondary_transport.
    unfold_monad. simpl.
    destruct (primary_delivers env (primary_calls (out w))); simpl.
    { split; [lia|]. split; [lia|]. split; [by right | discriminate]. }
    destruct n as [|n].
    + replace (Z.of_nat a <? MAX_RETRIES config - 1)%Z with false
        by (symmetry; apply Z.ltb_ge; lia).
      simpl.
      destruct (secondary_delivers env (secondary_calls (out w))) eqn:Es; simpl.
      * split; [lia|]. split; [lia|]. split; [by left | discriminate].
      * split; [lia|]. split; [lia|]. split; [by left|].
        intros e [= <-]. by repeat split.
    + replace (Z.of_nat a <? MAX_RETRIES config - 1)%Z with true
        by (symmetry; apply Z.ltb_lt; lia).
      remember (map Z.of_nat (seq (S a) (S n))) as rest eqn:Hrest.
      simpl.
      match goal with
      | |- context [send_attempts env config subject t rest ?w0] =>
          specialize (IH (S a) w0)
      end.
      cbv zeta in IH. rewrite <- Hrest in IH.
      destruct IH as (H1 & H2 & H3 & H4); [lia|].
      simpl in H1, H2, H3, H4.
      split; [lia|]. split; [lia|]. split; [exact H3 | exact H4].
Qed.


(** X10. The ledger is only ever written at the subject of the call, with
    the time read when the call began: after [send_notification] it is
    the ledger of before or that ledger with this one entry set.  No
    entry is removed and no other subject is touched. *)
Theorem send_notification_ledger
    (env : Env) (config : Config) (subject : string) (w : World) :
  let w' := snd (send_notification env config subject w) in
  let t := time_time env (clock_reads (out w)) in
  (last_notification_time (email w') = last_notification_time (email w)
   \/ last_notification_time (email w')
      = <[subject := t]> (last_notification_time (email w)))
  /\ (forall other, other <> subject ->
        last_notification_time (email w') !! other
        = last_notification_time (email w) !! other)
  /\ (forall s, is_Some (last_notification_time (email w) !! s) ->
        is_Some (last_notification_time (email w') !! s)).
Proof.
  intros w' t.
  assert (H : last_notification_time (email w') = last_notification_time (email w)
              \/ last_notification_time (email w')
                 = <[subject := t]> (last_notification_time (email w))).
  { subst w' t. unfold send_notification, read_clock, logger.
    unfold_monad. simpl.
    destruct (rate_limited _ _ _ _); simpl; [by left|].
    unfold py_range.
    match goal with
    | |- context [send_attempts env config subject ?t0 _ ?w0] =>
        pose proof (send_attempts_bounds env config subject t0
                      (Z.to_nat (MAX_RETRIES config)) 0 w0) as Hs
    end.
    cbv zeta in Hs. destruct Hs as (_ & _ & H3 & _); [lia|]. exact H3. }
  split; [exact H|]. split.
  - intros other Hne. destruct H as [-> | ->]; [done|].
    by rewrite lookup_insert_ne.
  - intros s Hs. destruct H as [-> | ->]; [done|].
    destruct (decide (s = subject)) as [->|Hne].
    + rewrite lookup_insert_eq. by eexists.
    + by rewrite lookup_insert_ne.
Qed.

(** X11. With MAX_RETRIES at or below zero the retry loop has no
    iteration: [send_notification] returns normally without any transport
    call and without writing the ledger - the notification is dropped. *)
Theorem send_notification_without_retries
    (env : Env) (config : Config) (subject : string) (w : World) :
  (MAX_RETRIES config <= 0)%Z ->
  let r := send_notification env config subject w in
  fst r = Ok tt
  /\ transport_attempts (snd r) = transport_attempts w
  /\ email (snd r) = email w.
Proof.
  intros Hmax.
  unfold send_notification, read_clock, logger, py_range, transport_attempts.
  unfold_monad. simpl.
  replace (Z.to_nat (MAX_RETRIES config)) with 0%nat by lia.
  destruct (rate_limited _ _ _ _); by simpl.
Qed.

Lemma send_notification_without_retries_witness :
  let config := MkConfig [] (of_Z 1) 3600 3600 0 (of_Z 1) (of_Z 60) in
  let r := send_notification (calm_env [0]%Z) config "ATH Alert: ETHUSDT"
             new_world in
  fst r = Ok tt /\ transport_attempts (snd r) = 0%nat.
Proof.
  intros config r.
  destruct (send_notification_without_retries (calm_env [0]%Z) config
              "ATH Alert: ETHUSDT" new_world) as (H1 & H2 & _).
  - simpl. lia.
  - split; [exact H1 | exact H2].
Defined.

(** The retry loop when no try of the primary transport delivers: a
    back-off sleep after each try but the last, then the one secondary
    call, which decides the outcome. *)
Lemma send_attempts_all_fail env config subject t :
  forall (n a : nat) (w : World),
  (0 < n)%nat ->
  Z.of_nat (a + n) = MAX_RETRIES config ->
  (forall j, (j < n)%nat ->
     primary_delivers env (primary_calls (out w) + j) = false) ->
  let r := send_attempts env config subject t (map Z.of_nat (seq a n)) w in
  sleeps (out (snd r))
    = sleeps (out w)
      ++ map (retry_delay config) (map Z.of_nat (seq a (n - 1)))
  /\ primary_calls (out (snd r)) = (primary_calls (out w) + n)%nat
  /\ secondary_calls (out (snd r)) = S (secondary_calls (out w))
  /\ fst r = (if secondary_delivers env (secondary_calls (out w))
              then Ok tt else Raise SMTPException).
Proof.
  induction n as [|n IH]; intros a w Hpos Hmax Hfail; [lia|].
  assert (H0 : primary_delivers env (primary_calls (out w)) = false).
  { rewrite <- (Hfail 0%nat); [f_equal; lia | lia]. }
  simpl.
  unfold _send_email, logger, set_last_notification_time, _handle_retry,
    asyncio_sleep, _send_via_secondary_server, secondary_transport.
  unfold_monad. simpl. rewrite H0. simpl.
  destruct n as [|n].
  - replace (Z.of_nat a <? MAX_RETRIES config - 1)%Z with false
      by (symmetry; apply Z.ltb_ge; lia).
    simpl.
    destruct (secondary_delivers env (secondary_calls (out w))); simpl;
      rewrite app_nil_r; repeat split; try done; lia.
  - replace (Z.of_nat a <? MAX_RETRIES config - 1)%Z with true
      by (symmetry; apply Z.ltb_lt; lia).
    remember (map Z.of_nat (seq (S a) (S n))) as rest eqn:Hrest.
    simpl.
    match goal with
    | |- context [send_attempts env config subject t rest ?w0] =>
        specialize (IH (S a) w0)
    end.
    cbv zeta in IH. rewrite <- Hrest in IH.
    destruct IH as (H1 & H2 & H3 & H4).
    + lia.
    + lia.
    + intros j Hj. simpl. rewrite <- (Hfail (S j)); [f_equal; lia | lia].
    + simpl in H1, H2, H3, H4.
      replace (S n - 1)%nat with n in H1 by lia.
      rewrite H1, H4. rewrite Nat.sub_0_r. simpl.
      rewrite <- app_assoc. simpl.
      repeat split; try done. lia.
Qed.



(** X13. Suppression ends with the interval, inclusive: a notification
    whose subject was last sent NOTIFICATION_INTERVAL seconds ago or
    earlier is sent again, and a delivery at the first try moves the
    ledger entry to the new time. *)
Theorem send_notification_after_interval
    (env : Env) (config : Config) (subject : string) (w : World) (last : Qc) :
  let t := time_time env (clock_reads (out w)) in
  last_notification_time (email w) !! subject = Some last ->
  (of_Z (NOTIFICATION_INTERVAL config) <= t - last)%Qc ->
  (1 <= MAX_RETRIES config)%Z ->
  primary_delivers env (primary_calls (out w)) = true ->
  let r := send_notification env config subject w in
  fst r = Ok tt
  /\ primary_calls (out (snd r)) = S (primary_calls (out w))
  /\ last_notification_time (email (snd r)) !! subject = Some t.
Proof.
  intros t Hlast Hle Hmax Hok r. subst r.
  unfold send_notification, read_clock, rate_limited. unfold_monad. simpl.
  rewrite Hlast. fold t.
  rewrite (Qcltb_false_of_le _ _ Hle). unfold py_range.
  match goal with
  | |- context [send_attempts env config subject t _ ?w0] =>
      pose proof (send_attempts_primary_delivers env config subject t
                    0 0 (Z.to_nat (MAX_RETRIES config)) w0) as Hs
  end.
  cbv zeta in Hs. destruct Hs as (H1 & H2 & H3 & _).
  - lia.
  - lia.
  - intros j Hj. lia.
  - simpl. by rewrite Nat.add_0_r.
  - simpl in H3. repeat split; try done. lia.
Qed.

Lemma send_notification_after_interval_witness :
  let env := calm_env [0; 3600]%Z in
  let subject := "ATH Alert: ETHUSDT" in
  let w1 := snd (send_notification env default_config subject new_world) in
  let r := send_notification env default_config subject w1 in
  fst r = Ok tt
  /\ primary_calls (out (snd r)) = 2%nat
  /\ last_notification_time (email (snd r)) !! subject = Some (of_Z 3600).
Proof.
  intros env subject w1 r.
  destruct (send_notification_after_interval env default_config subject w1
              (of_Z 0)) as (H1 & H2 & H3).
  - reflexivity.
  - vm_compute. discriminate.
  - simpl. lia.
  - reflexivity.
  - repeat split; assumption.
Defined.

(** ** Subjects *)

Lemma event_type_mapping_name ty b :
  event_type_mapping ty = Some b -> ty = bucket_name b.
Proof.
  unfold event_type_mapping.
  repeat match goal with
         | |- context [String.eqb ty ?s] =>
             destruct (String.eqb_spec ty s) as [->|_];
             [by intros [= <-]|]
         end.
  discriminate.
Qed.

(** X14. For the five alert types of [event_type_mapping], the subject
    line determines the alert type and the symbol: two alerts share a
    subject, and hence a rate-limit entry, only when they have the same
    type and the same symbol. *)
Theorem alert_subject_injective (ty1 ty2 sym1 sym2 : string) (b1 b2 : bucket) :
  event_type_mapping ty1 = Some b1 ->
  event_type_mapping ty2 = Some b2 ->
  alert_subject ty1 sym1 = alert_subject ty2 sym2 ->
  ty1 = ty2 /\ sym1 = sym2.
Proof.
  intros H1 H2 Hs.
  apply event_type_mapping_name in H1, H2. subst ty1 ty2.
  unfold alert_subject in Hs.
  destruct b1, b2; cbv in Hs; try discriminate Hs;
    (split; [reflexivity|]);
    repeat match type of Hs with
           | String _ _ = String _ _ => injection Hs as Hs
           end; exact Hs.
Qed.

Lemma alert_subject_injective_witness :
  "ATH" = "ATH" /\ "ETHUSDT" = "ETHUSDT".
Proof.
  exact (alert_subject_injective "ATH" "ATH" "ETHUSDT" "ETHUSDT" B_ath B_ath
           eq_refl eq_refl eq_refl).
Defined.

(** ** The buckets over the whole program *)

Lemma keeps_empty_bind {A B} (m : M A) (k : A -> M B) :
  keeps_empty m -> (forall a, keeps_empty (k a)) -> keeps_empty (bind m k).
Proof.
  intros Hm Hk w Hw. unfold bind. specialize (Hm w Hw).
  destruct (m w) as [[a|e] w']; simpl in *; [by apply Hk | done].
Qed.

Lemma keeps_empty_ret {A} (a : A) : keeps_empty (ret a).
Proof. by intros w Hw. Qed.

Lemma keeps_empty_raise {A} (e : exn) : keeps_empty (@raise A e).
Proof. by intros w Hw. Qed.

Lemma keeps_empty_try_catch {A} catches (m : M A) h :
  keeps_empty m -> (forall e, keeps_empty (h e)) ->
  keeps_empty (try_catch catches m h).
Proof.
  intros Hm Hh w Hw. unfold try_catch. specialize (Hm w Hw).
  destruct (m w) as [[a|e] w']; simpl in *; [done|].
  destruct (catches e); [by apply Hh | done].
Qed.

Lemma keeps_empty_try_except {A} (m : M A) h :
  keeps_empty m -> (forall e, keeps_empty (h e)) ->
  keeps_empty (try_except m h).
Proof.
  intros Hm Hh w Hw. unfold try_except. specialize (Hm w Hw).
  destruct (m w) as [[a|e] w']; simpl in *; [done|].
  destruct (is_Exception e); [by apply Hh | done].
Qed.

(** A computation that does not touch the alert manager. *)
Lemma keeps_empty_same {A} (m : M A) :
  (forall w, alerts (snd (m w)) = alerts w) -> keeps_empty m.
Proof. intros H w Hw. by rewrite H. Qed.

Lemma logger_keeps_empty l msg : keeps_empty (logger l msg).
Proof. by apply keeps_empty_same. Qed.

Lemma check_and_notify_keeps_empty env config sym p :
  keeps_empty (check_and_notify env config sym p).
Proof.
  intros w Hw. rewrite check_and_notify_unfold.
  revert w Hw. change (keeps_empty
    (price_change <- update_price_change env sym p 3600 ;;
     movement_alert env config sym p price_change ;;
     ath <- get_all_time_high env sym ;;
     atl <- get_all_time_low env sym ;;
     ninety_day_high <- get_ninety_day_high env sym ;;
     ninety_day_low <- get_ninety_day_low env sym ;;
     notify_extremum env config sym p
       (extremum_kind p ath atl ninety_day_high ninety_day_low))%py).
  apply keeps_empty_bind.
  { apply keeps_empty_same. intros w. apply update_price_change_frame. }
  intros pc. apply keeps_empty_bind.
  { unfold movement_alert. destruct pc as [c|]; [|apply keeps_empty_ret].
    destruct (Qcleb _ _); [|apply keeps_empty_ret].
    intros w. apply send_alert_keeps_empty. }
  intros _. apply keeps_empty_bind.
  { apply keeps_empty_same. intros w. apply all_time_lookup_frame. }
  intros ath. apply keeps_empty_bind.
  { apply keeps_empty_same. intros w. apply all_time_lookup_frame. }
  intros atl. apply keeps_empty_bind.
  { apply keeps_empty_same. intros w. apply ninety_day_lookup_frame. }
  intros h. apply keeps_empty_bind.
  { apply keeps_empty_same. intros w. apply ninety_day_lookup_frame. }
  intros l. unfold notify_extremum.
  destruct (extremum_kind p ath atl h l); [|apply keeps_empty_ret].
  intros w. apply send_alert_keeps_empty.
Qed.

Lemma process_ticker_keeps_empty env config tracked ticker_data :
  keeps_empty (process_ticker env config tracked ticker_data).
Proof.
  unfold process_ticker. apply keeps_empty_bind.
  { unfold method_get. destruct ticker_data;
      first [apply keeps_empty_ret | apply keeps_empty_raise]. }
  intros sy. apply keeps_empty_bind.
  { unfold set_contains. destruct sy as [[]|];
      first [apply keeps_empty_ret | apply keeps_empty_raise]. }
  intros [sym|]; [|apply keeps_empty_ret].
  apply keeps_empty_bind.
  { unfold method_get. destruct ticker_data;
      first [apply keeps_empty_ret | apply keeps_empty_raise]. }
  intros pr. apply keeps_empty_bind.
  { unfold py_float. destruct (default (JNumber 0%Qc) pr);
      try first [apply keeps_empty_ret | apply keeps_empty_raise].
    destruct (float_of_string env s);
      first [apply keeps_empty_ret | apply keeps_empty_raise]. }
  intros cp. destruct (Qcltb 0 cp); [|apply logger_keeps_empty].
  apply keeps_empty_bind; [apply logger_keeps_empty|].
  intros _. apply check_and_notify_keeps_empty.
Qed.

Lemma for_each_keeps_empty {A} (body : A -> M unit) l :
  (forall x, keeps_empty (body x)) -> keeps_empty (for_each body l).
Proof.
  intros Hb. induction l as [|x l IH]; simpl; [apply keeps_empty_ret|].
  apply keeps_empty_bind; [apply Hb | intros _; exact IH].
Qed.

Lemma process_message_keeps_empty env config data tracked :
  keeps_empty (process_message env config data tracked).
Proof.
  unfold process_message. destruct data; try apply logger_keeps_empty.
  apply for_each_keeps_empty. intros x. apply process_ticker_keeps_empty.
Qed.

Lemma receive_loop_keeps_empty env config tracked frames fin :
  keeps_empty (receive_loop env config tracked frames fin).
Proof.
  induction frames as [|message rest IH]; simpl.
  - destruct fin; [apply keeps_empty_ret | apply keeps_empty_raise].
  - apply keeps_empty_bind; [by apply keeps_empty_same|].
    intros t. apply keeps_empty_bind; [by apply keeps_empty_same|].
    intros _. apply keeps_empty_bind; [|intros _; exact IH].
    destruct message as [|decoded]; [apply logger_keeps_empty|].
    apply keeps_empty_try_catch; [|intros _; apply logger_keeps_empty].
    apply keeps_empty_bind.
    + unfold json_loads. destruct decoded;
        [apply keeps_empty_ret | apply keeps_empty_raise].
    + intros data. apply process_message_keeps_empty.
Qed.

Lemma initialize_symbols_keeps_empty env config :
  keeps_empty (initialize_symbols env config).
Proof.
  unfold initialize_symbols. destruct (symbols_of_interest config);
    [apply logger_keeps_empty|].
  apply keeps_empty_try_except.
  - apply keeps_empty_bind; [by apply keeps_empty_same|].
    intros info. apply keeps_empty_bind; [by apply keeps_empty_same|].
    intros _. apply logger_keeps_empty.
  - intros _. apply keeps_empty_bind; [apply logger_keeps_empty|].
    intros _. by apply keeps_empty_same.
Qed.

Lemma handle_websocket_keeps_empty env config frames fin :
  keeps_empty (handle_websocket env config frames fin).
Proof.
  unfold handle_websocket.
  apply keeps_empty_bind; [apply initialize_symbols_keeps_empty|].
  intros _. apply keeps_empty_bind; [by apply keeps_empty_same|].
  intros own w Hw.
  pose proof (receive_loop_keeps_empty env config
                (default own (symbols_of_interest config)) frames fin w Hw) as H.
  destruct (receive_loop env config _ frames fin w) as [[[]|e] w']; simpl in *;
    [done|].
  destruct e; simpl; done.
Qed.

Lemma run_iteration_keeps_empty env config retry_count :
  keeps_empty (run_iteration env config retry_count).
Proof.
  intros w Hw. unfold run_iteration.
  assert (Hc : keeps_empty (connect_and_handle env config)).
  { unfold connect_and_handle.
    apply keeps_empty_bind; [by apply keeps_empty_same|].
    intros [e|frames fin]; [apply keeps_empty_raise|].
    apply keeps_empty_bind; [apply logger_keeps_empty|].
    intros _. apply handle_websocket_keeps_empty. }
  specialize (Hc w Hw).
  destruct (connect_and_handle env config w) as [[[]|e] w']; simpl in *;
    [done|].
  revert w' Hc. change (keeps_empty (on_connection_error env config retry_count e)).
  unfold on_connection_error.
  destruct e;
    (apply keeps_empty_bind; [by apply keeps_empty_same|]);
    intros [|]; try apply keeps_empty_ret;
    try (apply keeps_empty_bind; [apply logger_keeps_empty|];
         intros _; apply keeps_empty_ret);
    (apply keeps_empty_bind; [apply logger_keeps_empty|]); intros _;
    (destruct (_ <? _)%Z;
     [apply keeps_empty_bind; [apply logger_keeps_empty|];
      intros _; apply keeps_empty_ret|]);
    (apply keeps_empty_bind; [apply logger_keeps_empty|]); intros _;
    (apply keeps_empty_bind; [by apply keeps_empty_same|]); intros _;
    apply keeps_empty_ret.
Qed.

Lemma run_loop_keeps_empty env config fuel :
  forall retry_count, keeps_empty (run_loop env config fuel retry_count).
Proof.
  induction fuel as [|fuel IH]; intros retry_count; simpl;
    [apply keeps_empty_ret|].
  apply keeps_empty_bind; [by apply keeps_empty_same|].
  intros [|]; [apply keeps_empty_ret|].
  apply keeps_empty_bind; [apply run_iteration_keeps_empty|].
  intros [|rc]; [apply keeps_empty_ret | apply IH].
Qed.

(** X15. No event ever reaches a bucket.  From a state with empty
    buckets - the state after construction - the five buckets are still
    empty after any run of the stream loop, after any connection handled,
    after any tick and after any alert, whatever the feed, the transports
    and the collaborators do. *)
Theorem buckets_stay_empty
    (env : Env) (config : Config) (w : World) :
  alerts w = new_alerts ->
  (forall fuel, alerts (snd (run env config fuel w)) = new_alerts)
  /\ (forall frames fin,
        alerts (snd (handle_websocket env config frames fin w)) = new_alerts)
  /\ (forall sym p,
        alerts (snd (check_and_notify env config sym p w)) = new_alerts)
  /\ (forall alert_type sym p,
        alerts (snd (send_alert env config alert_type sym p w)) = new_alerts).
Proof.
  intros Hw. split; [|split; [|split]].
  - intros fuel. by apply run_loop_keeps_empty.
  - intros frames fin. by apply handle_websocket_keeps_empty.
  - intros sym p. by apply check_and_notify_keeps_empty.
  - intros alert_type sym p. by apply send_alert_keeps_empty.
Qed.

Lemma buckets_stay_empty_witness :
  alerts (snd (handle_websocket (calm_env [5; 6; 7; 8; 9]%Z) btc_config
                 [good_price_frame] EndOfStream new_world)) = new_alerts.
Proof.
  apply (proj1 (proj2 (buckets_stay_empty (calm_env [5; 6; 7; 8; 9]%Z)
                         btc_config new_world eq_refl))).
Defined.

(** ** The run loop *)




Lemma run_loop_step env config fuel retry_count w :
  should_exit env (exit_queries (out w)) = false ->
  run_loop env config (S fuel) retry_count w
  = match run_iteration env config retry_count
            (snd (should_exit_is_set env w)) with
    | (Ok Break, w1) => (Ok (Some tt), w1)
    | (Ok (Continue retry_count'), w1) =>
        run_loop env config fuel retry_count' w1
    | (Raise e, w1) => (Raise e, w1)
    end.
Proof.
  intros Hx. cbn [run_loop]. unfold bind at 1.
  unfold should_exit_is_set at 1. cbn [fst snd]. rewrite Hx.
  unfold bind. unfold should_exit_is_set at 1. cbn [snd].
  destruct (run_iteration env config retry_count _) as [[[|rc]|e] w1]; done.
Qed.





Lemma initialize_symbols_raises env config w e :
  fst (initialize_symbols env config w) = Raise e -> e = CancelledError.
Proof.
  unfold initialize_symbols, api_futures_exchange_info, set_all_usdt_symbols,
    logger.
  destruct (symbols_of_interest config); unfold_monad; simpl; [discriminate|].
  destruct (futures_exchange_info env (exchange_info_calls (out w)))
    as [info|e']; simpl; [discriminate|].
  destruct e'; simpl; try discriminate. by intros [= <-].
Qed.

(** X18. [handle_websocket] lets only two exceptions out: the
    [InvalidStatusCode] it re-raises, and [CancelledError], which
    [except Exception] does not catch.  Every other error of the receive
    loop - a closed connection, a failed alert, a malformed entry, a failed
    collaborator - ends the handling with a normal return. *)
Theorem handle_websocket_raises_only
    (env : Env) (config : Config) (frames : list frame) (fin : stream_end)
    (w : World) (e : exn) :
  fst (handle_websocket env config frames fin w) = Raise e ->
  e = CancelledError \/ exists code, e = InvalidStatusCode code.
Proof.
  unfold handle_websocket. unfold bind at 1.
  pose proof (initialize_symbols_raises env config w) as Hi.
  destruct (initialize_symbols env config w) as [[[]|e0] w0]; simpl in *.
  2:{ intros [= <-]. left. by apply Hi. }
  unfold bind, gets. simpl.
  destruct (receive_loop env config _ frames fin w0) as [[[]|e1] w1]; simpl;
    [discriminate|].
  unfold logger. unfold_monad.
  destruct e1; simpl; try discriminate; intros [= <-]; [right; by eexists | by left].
Qed.

Lemma handle_websocket_raises_only_witness :
  InvalidStatusCode 403 = CancelledError
  \/ exists code, InvalidStatusCode 403 = InvalidStatusCode code.
Proof.
  apply (handle_websocket_raises_only (calm_env []) default_config []
           (EndRaises (InvalidStatusCode 403)) new_world).
  reflexivity.
Defined.

(** X19. Reconnection without back-off.  While every connection is
    established and its handling returns normally without sleeping - as
    when the server accepts and then closes the connection - and the exit
    flag is unset, the run loop never ends and never sleeps: each
    iteration resets the retry count and connects again at once. *)
Theorem run_reconnects_without_delay (env : Env) (config : Config) :
  (forall n, exists frames fin,
     connect env n = Connected frames fin
     /\ quiet_connection env config frames fin) ->
  (forall n, should_exit env n = false) ->
  forall (fuel : nat) (retry_count : Z) (w : World),
  fst (run_loop env config fuel retry_count w) = Ok None
  /\ sleeps (out (snd (run_loop env config fuel retry_count w)))
     = sleeps (out w).
Proof.
  intros Hconn Hexit.
  induction fuel as [|fuel IH]; intros retry_count w; [done|].
  rewrite (run_loop_step env config _ retry_count w (Hexit _)).
  set (w0 := snd (should_exit_is_set env w)).
  assert (Hit : exists w1,
    run_iteration env config retry_count w0 = (Ok (Continue 0), w1)
    /\ sleeps (out w1) = sleeps (out w)).
  { unfold run_iteration, connect_and_handle, websockets_connect, logger.
    unfold_monad. simpl.
    destruct (Hconn (connects (out w))) as (frames & fin & -> & Hq). simpl.
    match goal with
    | |- context [handle_websocket env config frames fin ?w2] =>
        destruct (Hq w2) as [Hr Hs];
        destruct (handle_websocket env config frames fin w2) as [r w1]
    end.
    simpl in Hr, Hs. subst r. exists w1. split; [done|]. by rewrite Hs. }
  destruct Hit as (w1 & -> & Hs1).
  destruct (IH 0%Z w1) as [I1 I2]. split; [exact I1 | congruence].
Qed.

Lemma closing_connection_is_quiet :
  quiet_connection (calm_env []) btc_config [] (EndRaises ConnectionClosed).
Proof. intros w. by split. Qed.

Lemma run_reconnects_without_delay_witness :
  let env :=
    MkEnv (clock_of []) (fun _ => "2024-01-01") (fun _ => true) (fun _ => true)
      (fun _ _ _ => Ok []) (fun _ => Ok []) (fun _ => None)
      (fun _ => Connected [] (EndRaises ConnectionClosed)) (fun _ => false) in
  fst (run env btc_config 50 new_world) = Ok None
  /\ sleeps (out (snd (run env btc_config 50 new_world))) = [].
Proof.
  intros env.
  apply (run_reconnects_without_delay env btc_config).
  - intros n. exists [], (EndRaises ConnectionClosed).
    split; [reflexivity|]. intros w. by split.
  - intros n. reflexivity.
Defined.

(** ** Entries of a frame *)

Lemma process_ticker_untracked env config tracked item w :
  untracked_entry tracked item ->
  process_ticker env config tracked item w = (Ok tt, w).
Proof.
  intros (fields & -> & Hs).
  unfold process_ticker, method_get, set_contains. unfold_monad.
  destruct (dict_get fields "s") as [[| | |s| |]|]; try done.
  by rewrite bool_decide_eq_false_2.
Qed.

(** X20. A frame whose entries are all for symbols that are not tracked
    changes nothing at all: [process_message] returns normally and the
    state - tracker, alerts, ledger, log, calls made - is the one before. *)
Theorem process_message_untracked
    (env : Env) (config : Config) (tracked : gset string)
    (items : list json) (w : World) :
  Forall (untracked_entry tracked) items ->
  process_message env config (JArray items) tracked w = (Ok tt, w).
Proof.
  intros H. unfold process_message.
  induction H as [|item items Hi _ IH]; simpl; [done|].
  unfold bind. by rewrite (process_ticker_untracked env config tracked item w Hi).
Qed.

Lemma process_message_untracked_witness :
  process_message (calm_env []) default_config
    (JArray [JObject [("s", JString "ETHUSDT"); ("p", JString "3000")];
             JObject [("p", JNumber (of_Z 1))]])
    {["BTCUSDT"]} new_world
  = (Ok tt, new_world).
Proof.
  apply process_message_untracked.
  constructor; [|constructor; [|constructor]].
  - eexists. split; [reflexivity|]. simpl. set_solver.
  - eexists. split; [reflexivity|]. by simpl.
Defined.



(** ** The tracked symbols *)

(** X22. Without a configured list of symbols, [initialize_symbols] asks
    the exchange once; when the answer arrives, the tracked set holds
    exactly the symbols of the answer that end in "USDT" and whose status
    is "TRADING"; when the call fails with an exception, the tracked set
    is empty and the method still returns normally. *)
Theorem initialize_symbols_all_usdt (env : Env) (config : Config) (w : World) :
  SYMBOLS_OF_INTEREST config = [] ->
  let r := initialize_symbols env config w in
  exchange_info_calls (out (snd r)) = S (exchange_info_calls (out w))
  /\ match futures_exchange_info env (exchange_info_calls (out w)) with
     | Ok info =>
         fst r = Ok tt
         /\ forall s, (s ∈ all_usdt_symbols (ws (snd r)))
                      <-> (In (s, "TRADING") info /\ endswith s "USDT" = true)
     | Raise e =>
         is_Exception e = true ->
         fst r = Ok tt /\ all_usdt_symbols (ws (snd r)) = ∅
     end.
Proof.
  intros Hnone.
  unfold initialize_symbols, symbols_of_interest, api_futures_exchange_info,
    set_all_usdt_symbols, logger.
  rewrite Hnone. unfold_monad. simpl.
  destruct (futures_exchange_info env (exchange_info_calls (out w)))
    as [info|e]; simpl.
  - split; [done|]. split; [done|]. intros s.
    rewrite elem_of_list_to_set, list_elem_of_In, in_map_iff. split.
    + intros ([s' st] & <- & Hin). apply List.filter_In in Hin as [Hin Hc].
      simpl in *. apply andb_true_iff in Hc as [He Hst].
      apply String.eqb_eq in Hst. by subst st.
    + intros [Hin He]. exists (s, "TRADING"). split; [done|].
      apply List.filter_In. split; [done|]. simpl. by rewrite He.
  - destruct (is_Exception e); simpl; [|done]. by split.
Qed.

Lemma initialize_symbols_all_usdt_witness :
  let env :=
    MkEnv (clock_of []) (fun _ => "2024-01-01") (fun _ => true) (fun _ => true)
      (fun _ _ _ => Ok [])
      (fun _ => Ok [("BTCUSDT", "TRADING"); ("ETHBTC", "TRADING");
                    ("LUNAUSDT", "BREAK")])
      (fun _ => None) (fun _ => Connected [] EndOfStream) (fun _ => true) in
  let r := initialize_symbols env default_config new_world in
  ("BTCUSDT" ∈ all_usdt_symbols (ws (snd r)))
  /\ ("ETHBTC" ∉ all_usdt_symbols (ws (snd r)))
  /\ ("LUNAUSDT" ∉ all_usdt_symbols (ws (snd r))).
Proof.
  intros env r.
  destruct (initialize_symbols_all_usdt env default_config new_world eq_refl)
    as [_ H].
  simpl in H. destruct H as [_ H]. fold r in H.
  split; [|split].
  - apply H. split; [by left | reflexivity].
  - intros Hin. apply H in Hin as [_ He]. vm_compute in He. discriminate.
  - intros Hin. apply H in Hin as [Hin _]. simpl in Hin.
    destruct Hin as [Hin|[Hin|[Hin|[]]]]; discriminate.
Defined.

(** ** Failures inside a tick *)

Lemma all_time_fetch_raises env field sym w e :
  field (tracker w) !! sym = None ->
  get_historical_data env (history_calls (out w)) sym 1000 = Raise e ->
  cached_or_fetch field (update_all_time_high_low env sym) sym w
    = (Raise e, after_fetch w).
Proof.
  intros Hn Hh.
  unfold cached_or_fetch, update_all_time_high_low, api_get_historical_data.
  unfold_monad. by rewrite Hn, Hh.
Qed.

(** X23. A failing collaborator ends the tick.  When the all-time high
    of the symbol is not cached and the historical fetch raises, the tick
    raises as well - nothing in [check_and_notify] catches it - the four
    extremum dictionaries are as before, and no extremum alert has been
    raised: the only alert the tick can have raised is "Price Movement". *)
Theorem collaborator_failure_ends_tick
    (env : Env) (config : Config) (sym : string) (p : Qc) (w : World) (e : exn) :
  all_time_highs (tracker w) !! sym = None ->
  (forall n, get_historical_data env n sym 1000 = Raise e) ->
  let r := check_and_notify env config sym p w in
  returns (fst r) = false
  /\ (alerts_between w (snd r) = []
      \/ alerts_between w (snd r) = [("Price Movement", sym, p)])
  /\ all_time_highs (tracker (snd r)) = all_time_highs (tracker w)
  /\ all_time_lows (tracker (snd r)) = all_time_lows (tracker w)
  /\ ninety_day_highs (tracker (snd r)) = ninety_day_highs (tracker w)
  /\ ninety_day_lows (tracker (snd r)) = ninety_day_lows (tracker w).
Proof.
  intros Hn Hfail r. subst r. rewrite check_and_notify_unfold. unfold bind.
  pose proof (update_price_change_quiet env sym p 3600 w) as (H1 & L1 & A1).
  pose proof (update_price_change_ninety_day env sym p 3600 w) as (N1 & M1).
  destruct (update_price_change env sym p 3600 w) as [[pc|e0] w1]; simpl in *.
  { pose proof (movement_alert_effect env config sym p pc w1) as (T2 & A2).
    destruct (movement_alert env config sym p pc w1) as [[[]|e1] w2];
      simpl in *.
    - unfold get_all_time_high.
      rewrite (all_time_fetch_raises env all_time_highs sym w2 e)
        by (try apply Hfail; congruence).
      simpl. rewrite T2. split; [done|]. split; [|by repeat split].
      destruct A2 as [A2|A2]; [left|right]; apply alerts_between_app; simpl;
        [rewrite app_nil_r|]; congruence.
    - rewrite T2. split; [done|]. split; [|by repeat split].
      destruct A2 as [A2|A2]; [left|right]; apply alerts_between_app;
        [rewrite app_nil_r|]; congruence. }
  split; [done|]. split; [|by repeat split].
  left. apply alerts_between_app. by rewrite app_nil_r.
Qed.

Lemma collaborator_failure_ends_tick_witness :
  let env :=
    MkEnv (clock_of []) (fun _ => "2024-01-01") (fun _ => true) (fun _ => true)
      (fun _ _ _ => Raise APIError) (fun _ => Ok []) (fun _ => None)
      (fun _ => Connected [] EndOfStream) (fun _ => true) in
  let r := check_and_notify env default_config "BTCUSDT" (of_Z 102) new_world in
  fst r = Raise APIError /\ alerts_between new_world (snd r) = [].
Proof.
  intros env r.
  destruct (collaborator_failure_ends_tick env default_config "BTCUSDT"
              (of_Z 102) new_world APIError eq_refl (fun _ => eq_refl))
    as (_ & _ & _).
  split; reflexivity.
Defined.




(** ** The watchdog *)

Lemma check_connection_loop_silent env t :
  (forall n, (time_time env n - t <= of_Z connection_timeout)%Qc) ->
  forall fuel w,
  last_message_time (ws w) = Some t ->
  fst (check_connection_loop env fuel w) = Ok None.
Proof.
  intros Hall. induction fuel as [|fuel IH]; intros w Hlast; [done|].
  simpl. unfold gets, read_clock, logger, asyncio_sleep. unfold_monad. simpl.
  rewrite Hlast. simpl.
  rewrite (Qcltb_false_of_le _ _ (Hall _)). simpl.
  apply IH. simpl. exact Hlast.
Qed.

Lemma check_connection_loop_waiting env :
  forall fuel w,
  last_message_time (ws w) = None ->
  let r := check_connection_loop env fuel w in
  fst r = Ok None
  /\ clock_reads (out (snd r)) = clock_reads (out w)
  /\ sleeps (out (snd r)) = sleeps (out w) ++ repeat (of_Z 60) fuel.
Proof.
  induction fuel as [|fuel IH]; intros w Hlast; simpl.
  - by rewrite app_nil_r.
  - unfold gets, logger, asyncio_sleep. unfold_monad. simpl. rewrite Hlast.
    simpl.
    match goal with
    | |- context [check_connection_loop env fuel ?w0] =>
        destruct (IH w0 Hlast) as (H1 & H2 & H3)
    end.
    simpl in H2, H3. rewrite H1, H2, H3. rewrite <- app_assoc. by simpl.
Qed.

(** X25. A connection that never delivers a message is never closed by
    the watchdog: as long as [last_message_time] is [None], the watchdog
    sleeps 600 s and then 60 s again and again, never reads the clock and
    never closes. *)
Theorem watchdog_waits_for_first_message (env : Env) (fuel : nat) (w : World) :
  last_message_time (ws w) = None ->
  let r := check_connection env fuel w in
  fst r = Ok None
  /\ clock_reads (out (snd r)) = clock_reads (out w)
  /\ sleeps (out (snd r))
     = sleeps (out w) ++ of_Z 600 :: repeat (of_Z 60) fuel.
Proof.
  intros Hlast. unfold check_connection, asyncio_sleep. unfold_monad. simpl.
  match goal with
  | |- context [check_connection_loop env fuel ?w0] =>
      destruct (check_connection_loop_waiting env fuel w0 Hlast)
        as (H1 & H2 & H3)
  end.
  simpl in H2, H3. rewrite H1, H2, H3. rewrite <- app_assoc. by simpl.
Qed.

Lemma watchdog_waits_for_first_message_witness :
  fst (check_connection (calm_env []) 100 new_world) = Ok None.
Proof.
  apply (watchdog_waits_for_first_message (calm_env []) 100 new_world eq_refl).
Defined.

(** X26. With a last message at time [t] and no further message, the
    watchdog closes the connection at its first check when more than
    600 s have passed since [t] - strictly more - and never closes it when
    no clock reading is more than 600 s after [t]. *)
Theorem watchdog_closes_after_timeout (env : Env) (t : Qc) (w : World) :
  last_message_time (ws w) = Some t ->
  ((of_Z 600 < time_time env (clock_reads (out w)) - t)%Qc ->
   forall fuel,
     fst (check_connection env (S fuel) w) = Ok (Some tt)
     /\ sleeps (out (snd (check_connection env (S fuel) w)))
        = sleeps (out w) ++ [of_Z 600])
  /\ ((forall n, (time_time env n - t <= of_Z 600)%Qc) ->
      forall fuel, fst (check_connection env fuel w) = Ok None).
Proof.
  intros Hlast. split.
  - intros Hlt fuel. unfold check_connection, asyncio_sleep. unfold_monad.
    simpl. unfold gets, read_clock, logger. unfold_monad. simpl.
    rewrite Hlast. simpl. apply Qcltb_lt in Hlt.
    unfold connection_timeout. rewrite Hlt. by simpl.
  - intros Hall fuel. unfold check_connection, asyncio_sleep. unfold_monad.
    simpl. by apply (check_connection_loop_silent env t Hall).
Qed.

Lemma watchdog_closes_after_timeout_witness :
  let w := with_ws (fun h => MkWS (all_usdt_symbols h) (Some (of_Z 0))) new_world in
  fst (check_connection (calm_env [601]%Z) 1 w) = Ok (Some tt)
  /\ fst (check_connection (calm_env [600; 600; 600]%Z) 1 w) = Ok None.
Proof.
  intros w. split.
  - apply (proj1 (watchdog_closes_after_timeout (calm_env [601]%Z) (of_Z 0) w
                    eq_refl)).
    vm_compute. reflexivity.
  - apply (proj2 (watchdog_closes_after_timeout (calm_env [600; 600; 600]%Z)
                    (of_Z 0) w eq_refl)).
    intros n. unfold calm_env, clock_of. simpl.
    destruct n as [|[|[|n]]]; simpl; try (vm_compute; discriminate).
    destruct n; vm_compute; discriminate.
Defined.

(** ** The digest scheduler *)

(** X27. The wait before the next digest.  For a digest time and a
    current time of day within one day, the wait is never negative and is
    less than a day, it is the difference of the two times, taken to the
    next day when the digest time has passed, and it is zero exactly when
    the current time is the digest time. *)
Theorem wait_seconds_bounds (digest_time now_time : Qc) :
  (0 <= digest_time)%Qc -> (digest_time < of_Z 86400)%Qc ->
  (0 <= now_time)%Qc -> (now_time < of_Z 86400)%Qc ->
  let wait := wait_seconds digest_time now_time in
  (0 <= wait)%Qc /\ (wait < of_Z 86400)%Qc
  /\ (wait = (digest_time - now_time)%Qc
      \/ wait = (digest_time - now_time + of_Z 86400)%Qc)
  /\ (wait = 0%Qc <-> now_time = digest_time).
Proof.
  intros Hd0 Hd1 Hn0 Hn1. unfold wait_seconds.
  set (day := of_Z 86400) in *.
  destruct (Qcltb digest_time now_time) eqn:E.
  - apply Qcltb_lt in E.
    assert (Hpos : (0 < digest_time + day - now_time)%Qc).
    { apply (proj1 (Qclt_minus_iff now_time (digest_time + day)%Qc)).
      eapply Qclt_le_trans; [exact Hn1|].
      rewrite <- (Qcplus_0_l day) at 1.
      by apply (proj1 (Qcplus_le_mono_r 0%Qc digest_time day)). }
    split; [by apply Qclt_le_weak|]. split.
    { apply (proj2 (Qclt_minus_iff (digest_time + day - now_time)%Qc day)).
      replace (day + - (digest_time + day - now_time))%Qc
        with (now_time + - digest_time)%Qc by ring.
      by apply (proj1 (Qclt_minus_iff digest_time now_time)). }
    split; [right; ring|]. split.
    + intros H0. rewrite H0 in Hpos. by apply Qclt_not_eq in Hpos.
    + intros ->. by apply Qclt_not_eq in E.
  - assert (Hle : (now_time <= digest_time)%Qc).
    { apply Qcnot_lt_le. intros H. apply Qcltb_lt in H. congruence. }
    split; [by apply (proj1 (Qcle_minus_iff now_time digest_time))|]. split.
    { apply (proj2 (Qclt_minus_iff (digest_time - now_time)%Qc day)).
      replace (day + - (digest_time - now_time))%Qc
        with ((day + - digest_time) + now_time)%Qc by ring.
      apply Qcplus_pos_nonneg;
        [by apply (proj1 (Qclt_minus_iff digest_time day)) | done]. }
    split; [by left|]. split.
    + intros H0.
      replace digest_time with ((digest_time - now_time) + now_time)%Qc by ring.
      rewrite H0. ring.
    + intros ->. ring.
Qed.

Lemma wait_seconds_bounds_witness :
  wait_seconds (of_Z 72000) (of_Z 75600) = (of_Z 72000 - of_Z 75600)%Qc
  \/ wait_seconds (of_Z 72000) (of_Z 75600)
     = (of_Z 72000 - of_Z 75600 + of_Z 86400)%Qc.
Proof.
  apply (wait_seconds_bounds (of_Z 72000) (of_Z 75600)); vm_compute;
    first [reflexivity | discriminate].
Defined.

(** The run behind the witness: digest at 20:00, now 21:00, the wait is
    23 hours. *)
Example wait_after_digest_time :
  Qceqb (wait_seconds (of_Z 72000) (of_Z 75600)) (of_Z 82800) = true.
Proof. by vm_compute. Qed.

Lemma send_notification_all_fail_raises env config subject w :
  (1 <= MAX_RETRIES config)%Z ->
  last_notification_time (email w) !! subject = None ->
  (forall n, primary_delivers env n = false) ->
  (forall n, secondary_delivers env n = false) ->
  fst (send_notification env config subject w) = Raise SMTPException.
Proof.
  intros Hmax Hnone Hp Hs.
  unfold send_notification, read_clock, rate_limited. unfold_monad. simpl.
  rewrite Hnone. unfold py_range.
  match goal with
  | |- context [send_attempts env config subject ?t0 _ ?w0] =>
      pose proof (send_attempts_all_fail env config subject t0
                    (Z.to_nat (MAX_RETRIES config)) 0 w0) as Ha
  end.
  cbv zeta in Ha. destruct Ha as (_ & _ & _ & H4); [lia | lia | auto |].
  rewrite H4. by rewrite Hs.
Qed.

(** X28. One failed digest ends the schedule.  The scheduler catches
    only [CancelledError]: when the exit flag is unset and the digest
    cannot be delivered (no transport delivers), the exception of
    [send_daily_digest] leaves [schedule_daily_digest], so that no later
    digest is sent; the buckets have been cleared all the same. *)
Theorem failed_digest_ends_schedule
    (env : Env) (config : Config) (time_of_day : Qc -> Qc) (digest_time : Qc)
    (fuel : nat) (w : World) :
  (forall n, should_exit env n = false) ->
  (forall n, primary_delivers env n = false) ->
  (forall n, secondary_delivers env n = false) ->
  (1 <= MAX_RETRIES config)%Z ->
  last_notification_time (email w) = ∅ ->
  let r := schedule_daily_digest env config time_of_day digest_time (S fuel) w in
  fst r = Raise SMTPException
  /\ alerts (snd r) = new_alerts.
Proof.
  intros Hexit Hp Hs Hmax Hledger. simpl.
  unfold should_exit_is_set, read_clock, asyncio_sleep, send_daily_digest,
    _clear_recorded_events.
  unfold_monad. simpl. rewrite !Hexit. simpl.
  match goal with
  | |- context [send_notification env config ?s ?w0] =>
      pose proof (send_notification_all_fail_raises env config s w0 Hmax) as Hr;
      destruct (send_notification env config s w0) as [r1 w1]
  end.
  simpl in Hr. rewrite Hr; try done.
  rewrite Hledger. apply lookup_empty.
Qed.

Lemma failed_digest_ends_schedule_witness :
  let env :=
    MkEnv (clock_of [0]%Z) (fun _ => "2024-01-01") (fun _ => false)
      (fun _ => false) (fun _ _ _ => Ok []) (fun _ => Ok []) (fun _ => None)
      (fun _ => Connected [] EndOfStream) (fun _ => false) in
  fst (schedule_daily_digest env default_config (fun t => t) (of_Z 72000) 3
         new_world) = Raise SMTPException.
Proof.
  intros env.
  apply (failed_digest_ends_schedule env default_config (fun t => t)
           (of_Z 72000) 2 new_world); try (intros n; reflexivity).
  - simpl. lia.
  - reflexivity.
Defined.

(** ** The body of the digest *)

Lemma string_app_assoc (s t u : string) : (s +:+ t) +:+ u = s +:+ (t +:+ u).
Proof.
  induction s as [|c s IH]; [reflexivity|].
  change ((String c s +:+ t) +:+ u) with (String c ((s +:+ t) +:+ u)).
  change (String c s +:+ (t +:+ u)) with (String c (s +:+ (t +:+ u))).
  by rewrite IH.
Qed.

Lemma string_app_nil_r (s : string) : s +:+ "" = s.
Proof.
  induction s as [|c s IH]; [reflexivity|].
  change (String c s +:+ "") with (String c (s +:+ "")). by rewrite IH.
Qed.

Lemma string_app_eq_nil (s t : string) : s +:+ t = "" -> s = "" /\ t = "".
Proof.
  destruct s as [|c s]; [by intros H|].
  change (String c s +:+ t) with (String c (s +:+ t)). discriminate.
Qed.

Lemma first_char_app (s t : string) :
  s <> "" -> first_char (s +:+ t) = first_char s.
Proof. by destruct s. Qed.

Lemma fold_event_lines show_price show_time l acc :
  fold_left (fun b ev => b +:+ event_line show_price show_time ev) l acc
  = acc +:+ fold_right (fun ev rest => event_line show_price show_time ev +:+ rest)
                       "" l.
Proof.
  revert acc. induction l as [|ev l IH]; intros acc; simpl.
  - by rewrite string_app_nil_r.
  - by rewrite IH, string_app_assoc.
Qed.

Lemma digest_section_text show_price show_time body section :
  digest_section show_price show_time body section
  = body +:+ section_text show_price show_time section.
Proof.
  destruct section as [l title]. unfold digest_section, section_text.
  destruct (truthy l); [|by rewrite string_app_nil_r].
  rewrite fold_event_lines. by rewrite !string_app_assoc.
Qed.

Lemma section_text_first_char show_price show_time ev l title rest :
  title <> "" ->
  first_char (section_text show_price show_time (ev :: l, title) +:+ rest)
  = first_char title.
Proof.
  intros Ht. unfold section_text. simpl truthy. cbv iota.
  rewrite string_app_assoc. by apply first_char_app.
Qed.

(** The text of the five sections: empty for empty buckets, and
    otherwise beginning with the first letter of a section title. *)
Lemma sections_first_char show_price show_time l1 l2 l3 l4 l5 :
  let text :=
    section_text show_price show_time (l1, "All-Time Highs")
    +:+ section_text show_price show_time (l2, "All-Time Lows")
    +:+ section_text show_price show_time (l3, "90-Day Highs")
    +:+ section_text show_price show_time (l4, "90-Day Lows")
    +:+ section_text show_price show_time (l5, "Significant Price Movements") in
  (text = "" /\ l1 = [] /\ l2 = [] /\ l3 = [] /\ l4 = [] /\ l5 = [])
  \/ (text <> ""
      /\ (first_char text = first_char "A"
          \/ first_char text = first_char "9"
          \/ first_char text = first_char "S")).
Proof.
  intros text. subst text.
  assert (Hne : forall s c, first_char s = first_char (String c "") -> s <> "").
  { intros s c H ->. discriminate. }
  destruct l1 as [|e1 l1].
  2:{ right. rewrite section_text_first_char by discriminate.
      split; [|by left].
      intros H. apply string_app_eq_nil in H as [H _]. discriminate H. }
  change (section_text show_price show_time ([], "All-Time Highs") +:+ ?x) with x.
  destruct l2 as [|e2 l2].
  2:{ right. rewrite section_text_first_char by discriminate.
      split; [|by left].
      intros H. apply string_app_eq_nil in H as [H _]. discriminate H. }
  change (section_text show_price show_time ([], "All-Time Lows") +:+ ?x) with x.
  destruct l3 as [|e3 l3].
  2:{ right. rewrite section_text_first_char by discriminate.
      split; [|by right; left].
      intros H. apply string_app_eq_nil in H as [H _]. discriminate H. }
  change (section_text show_price show_time ([], "90-Day Highs") +:+ ?x) with x.
  destruct l4 as [|e4 l4].
  2:{ right. rewrite section_text_first_char by discriminate.
      split; [|by right; left].
      intros H. apply string_app_eq_nil in H as [H _]. discriminate H. }
  change (section_text show_price show_time ([], "90-Day Lows") +:+ ?x) with x.
  destruct l5 as [|e5 l5]; [by left|].
  right. split; [discriminate|]. by right; right.
Qed.

(** X29. The body of the digest is never blank: it is the header
    followed by a non-empty text.  That text is the sentence that no
    significant events occurred exactly when all five buckets are empty;
    otherwise it begins with the title of the first non-empty bucket. *)
Theorem digest_body_states_no_events
    (show_price show_time : Qc -> string) (a : AlertManager) :
  let body := _compile_digest_body show_price show_time a in
  (exists text, body = digest_header +:+ text /\ text <> "")
  /\ (body = digest_header +:+ no_events_line <-> a = new_alerts).
Proof.
  destruct a as [l1 l2 l3 l4 l5]. unfold _compile_digest_body.
  cbn [fold_left ath_events atl_events ninety_day_ath_events
       ninety_day_atl_events price_movement_events].
  rewrite !digest_section_text, !string_app_assoc.
  destruct (sections_first_char show_price show_time l1 l2 l3 l4 l5)
    as [(Ht & -> & -> & -> & -> & ->)|[Hne Hc]].
  - cbv zeta in Ht. rewrite Ht, string_app_nil_r, String.eqb_refl.
    split; [|done]. exists no_events_line. split; [done | discriminate].
  - cbv zeta in Hne, Hc.
    match type of Hne with ?t <> "" => set (text := t) in * end.
    destruct (String.eqb_spec (digest_header +:+ text) digest_header) as [He|_].
    { exfalso. apply Hne.
      rewrite <- (string_app_nil_r digest_header) in He at 2.
      by apply (inj (String.app digest_header)) in He. }
    split; [by exists text|]. split.
    + intros He. apply (inj (String.app digest_header)) in He.
      rewrite He in Hc. destruct Hc as [Hc|[Hc|Hc]]; discriminate Hc.
    + intros [= -> -> -> -> ->]. exfalso. by apply Hne.
Qed.

(** A bucket with one event gives a body that begins with the section
    title and holds the line of the event. *)
Example digest_body_with_event :
  _compile_digest_body (fun _ => "3000.0") (fun _ => "2024-01-01T20:00:00")
    (MkAlertManager [MkPriceEvent "ETHUSDT" (of_Z 3000) (of_Z 0) "ATH"] [] [] [] [])
  = digest_header +:+ "All-Time Highs:" +:+ newline
    +:+ "Symbol: ETHUSDT, Price: 3000.0, Time: 2024-01-01T20:00:00" +:+ newline
    +:+ newline.
Proof. by vm_compute. Qed.
